(** * Verification model of the TraceNet GUI miner tool (tools/gui_miner)

    Shallow embedding of the Python sources [wallet.py], [miner.py],
    [explorer.py] and the two signing pipelines of [main.py]
    ([MiningApp.post_tweet] and [MiningApp.send_coins]). *)

From Stdlib Require Import ZArith List String Ascii Bool Lia.
Import ListNotations.
Open Scope string_scope.
Set Warnings "-register-all".


(* ------------------------------------------------------------------ *)
(** ** Python values *)

(** A Python [float], kept as the decimal [fmant * 10^(-fscale)].  The
    model covers the floats whose [repr] is the exact decimal: at most 15
    significant digits, which includes every value [float(s)] produces for
    such a decimal text [s].  Negative zero ([float('-0')]), [inf] and
    [nan] are outside the model. *)
Record pyfloat := mkfloat { fmant : Z; fscale : nat }.

(** The Python values that reach [json.dumps] and [json.load]: [None],
    [bool], [int], [float], [str], [list], and [dict] kept as an
    insertion-ordered association list (Python 3.7+ dict order). *)
Inductive pyval :=
| PNone
| PBool (b : bool)
| PInt (z : Z)
| PFloat (f : pyfloat)
| PStr (s : string)
| PList (l : list pyval)
| PDict (d : list (string * pyval)).

(** Python truthiness ([if not x]). *)
Definition truthy (v : pyval) : bool :=
  match v with
  | PNone => false
  | PBool b => b
  | PInt z => negb (Z.eqb z 0)
  | PFloat f => negb (Z.eqb (fmant f) 0)
  | PStr s => negb (String.eqb s "")
  | PList l => match l with [] => false | _ => true end
  | PDict d => match d with [] => false | _ => true end
  end.

(** [d[k]] on a dict: the value stored at [k], [None] for a [KeyError]. *)
Fixpoint dict_get (d : list (string * pyval)) (k : string) : option pyval :=
  match d with
  | [] => None
  | (k', v) :: d' => if String.eqb k k' then Some v else dict_get d' k
  end.

(** [d[k] = v]: an existing key keeps its position, a new key goes last. *)
Fixpoint dict_set (d : list (string * pyval)) (k : string) (v : pyval)
  : list (string * pyval) :=
  match d with
  | [] => [(k, v)]
  | (k', v') :: d' =>
      if String.eqb k k' then (k, v) :: d' else (k', v') :: dict_set d' k v
  end.

(* ------------------------------------------------------------------ *)
(** ** Number and string rendering *)

Definition digit_char (d : Z) : ascii := ascii_of_nat (48 + Z.to_nat d).

Fixpoint dec_digits (fuel : nat) (n : Z) (acc : string) : string :=
  match fuel with
  | O => acc
  | S f =>
      let acc' := String (digit_char (n mod 10)) acc in
      if Z.eqb (n / 10) 0 then acc' else dec_digits f (n / 10) acc'
  end.

(** [str(n)] / [repr(n)] of a Python [int]. *)
Definition z_to_dec (z : Z) : string :=
  let a := Z.abs z in
  let body := dec_digits (S (Z.to_nat (Z.log2 a))) a "" in
  if Z.ltb z 0 then "-" ++ body else body.

(** [n] written with exactly [w] digits, zero-padded on the left. *)
Fixpoint pad_digits (w : nat) (n : Z) (acc : string) : string :=
  match w with
  | O => acc
  | S w' => pad_digits w' (n / 10) (String (digit_char (n mod 10)) acc)
  end.

(** Drop trailing decimal zeros of the mantissa (same value). *)
Fixpoint float_normalize (fuel : nat) (m : Z) (s : nat) : Z * nat :=
  match fuel, s with
  | S f, S s' => if Z.eqb (m mod 10) 0 then float_normalize f (m / 10) s'
                 else (m, s)
  | _, _ => (m, s)
  end.

(** Drop every trailing decimal zero of a natural number. *)
Fixpoint strip_zeros (fuel : nat) (a : Z) : Z :=
  match fuel with
  | O => a
  | S f => if Z.eqb a 0 then a
           else if Z.eqb (a mod 10) 0 then strip_zeros f (a / 10) else a
  end.

(** The exponent of [repr]'s scientific form: a sign and at least two
    digits ([e+16], [e-05]). *)
Definition exp_text (e : Z) : string :=
  let a := Z.abs e in
  "e" ++ (if Z.ltb e 0 then "-" else "+")
  ++ (if Z.ltb a 10 then "0" else "") ++ z_to_dec a.

(** [float.__repr__], which [json.dumps] uses for floats: the shortest
    decimal, positional with a fractional part ([10.0], [0.5], [-2.25])
    when the decimal exponent is in [-4, 16), otherwise scientific
    ([1e+16], [1.5e-05]). *)
Definition float_repr (f : pyfloat) : string :=
  let '(m, s) := float_normalize (fscale f) (fmant f) (fscale f) in
  let sign := if Z.ltb m 0 then "-" else "" in
  let a := Z.abs m in
  let e := (Z.of_nat (String.length (z_to_dec a)) - 1 - Z.of_nat s)%Z in
  if Z.ltb e (-4) || Z.leb 16 e then
    let digits := z_to_dec (strip_zeros (String.length (z_to_dec a)) a) in
    let mant := match digits with
                | String d rest =>
                    if String.eqb rest "" then String d "" else String d ("." ++ rest)
                | EmptyString => ""
                end in
    sign ++ mant ++ exp_text e
  else
    match s with
    | O => sign ++ z_to_dec a ++ ".0"
    | S _ =>
        let p := (10 ^ Z.of_nat s)%Z in
        sign ++ z_to_dec (a / p) ++ "." ++ pad_digits s (a mod p) ""
    end.

Definition hex_char (d : nat) : ascii :=
  if Nat.ltb d 10 then ascii_of_nat (48 + d) else ascii_of_nat (87 + d).

(** The characters are code points 0..255 (one [ascii] each). *)
Definition json_escape_char (c : ascii) : string :=
  let n := nat_of_ascii c in
  if Nat.eqb n 34 then "\" ++ String c ""
  else if Nat.eqb n 92 then "\\"
  else if Nat.eqb n 10 then "\n"
  else if Nat.eqb n 13 then "\r"
  else if Nat.eqb n 9 then "\t"
  else if Nat.eqb n 8 then "\b"
  else if Nat.eqb n 12 then "\f"
  else if Nat.ltb n 32 || Nat.leb 127 n then
    "\u00" ++ String (hex_char (n / 16)) (String (hex_char (n mod 16)) "")
  else String c "".

(** [py_encode_basestring_ascii] of [json.encoder] ([ensure_ascii=True],
    the default): every character outside [' '..'~'] is escaped. *)
Fixpoint json_escape (s : string) : string :=
  match s with
  | EmptyString => ""
  | String c s' => json_escape_char c ++ json_escape s'
  end.

Definition dq : string := String (ascii_of_nat 34) "".

Definition json_string (s : string) : string := dq ++ json_escape s ++ dq.

(** [json.dumps(v, separators=(',', ':'))]: no whitespace, dict entries in
    insertion order (no [sort_keys]). *)
Fixpoint dumps (v : pyval) : string :=
  match v with
  | PNone => "null"
  | PBool b => if b then "true" else "false"
  | PInt z => z_to_dec z
  | PFloat f => float_repr f
  | PStr s => json_string s
  | PList l =>
      let fix items (l : list pyval) : string :=
        match l with
        | [] => ""
        | [x] => dumps x
        | x :: l' => dumps x ++ "," ++ items l'
        end in
      "[" ++ items l ++ "]"
  | PDict d =>
      let fix entries (d : list (string * pyval)) : string :=
        match d with
        | [] => ""
        | [(k, x)] => json_string k ++ ":" ++ dumps x
        | (k, x) :: d' => json_string k ++ ":" ++ dumps x ++ "," ++ entries d'
        end in
      "{" ++ entries d ++ "}"
  end.

(* ------------------------------------------------------------------ *)
(** ** Python string helpers *)

(** [str.isspace] on code points 0..255. *)
Definition is_py_space (c : ascii) : bool :=
  let n := nat_of_ascii c in
  (Nat.leb 9 n && Nat.leb n 13) || (Nat.leb 28 n && Nat.leb n 32)
  || Nat.eqb n 133 || Nat.eqb n 160.

Fixpoint lstrip (s : string) : string :=
  match s with
  | EmptyString => EmptyString
  | String c s' => if is_py_space c then lstrip s' else s
  end.

Fixpoint rev_string (s : string) (acc : string) : string :=
  match s with
  | EmptyString => acc
  | String c s' => rev_string s' (String c acc)
  end.

(** [s.strip()]. *)
Definition py_strip (s : string) : string :=
  rev_string (lstrip (rev_string (lstrip s) "")) "".

Fixpoint str_prefixb (p s : string) : bool :=
  match p, s with
  | EmptyString, _ => true
  | String c p', String d s' => Ascii.eqb c d && str_prefixb p' s'
  | _, _ => false
  end.

(** [p in s] for two strings. *)
Fixpoint str_contains (p s : string) : bool :=
  str_prefixb p s ||
  match s with
  | EmptyString => false
  | String _ s' => str_contains p s'
  end.

(** [needle in v] for a [str] needle: key test on a dict, element test on a
    list, substring test on a str; [None] for the [TypeError] raised on
    [None], [bool], [int] and [float]. *)
Definition py_in (needle : string) (v : pyval) : option bool :=
  match v with
  | PDict d => Some (existsb (fun kv => String.eqb (fst kv) needle) d)
  | PList l =>
      Some (existsb (fun x => match x with
                              | PStr s => String.eqb s needle
                              | _ => false
                              end) l)
  | PStr s => Some (str_contains needle s)
  | _ => None
  end.

(** [{"error": msg}]. *)
Definition err (msg : string) : pyval := PDict [("error", PStr msg)].

(* ------------------------------------------------------------------ *)
(** ** HTTP boundary and [ExplorerClient] (explorer.py) *)

(** Outcome of [response.json()]: the parsed body, or the message of the
    exception raised on a body that is not JSON. *)
Inductive json_body :=
| JsonOk (v : pyval)
| JsonErr (msg : string).

Record response := mkresponse { status_code : Z; body : json_body }.

(** Outcome of one [requests.get]/[requests.post]: a response, or an
    exception (connection refused, timeout, ...) with message [str(e)]. *)
Inductive http_outcome :=
| HttpOk (r : response)
| HttpExc (msg : string).

(** Python's outcome of a call: a returned value or an escaping exception. *)
Inductive pyresult (A : Type) :=
| Ret (a : A)
| Raise (msg : string).
Arguments Ret {A} a.
Arguments Raise {A} msg.

Definition json_or_err (r : response) : pyval :=
  match body r with
  | JsonOk v => v
  | JsonErr m => err m
  end.

Module Explorer.

(** [get_stats]: [except Exception as e: return {"error": str(e)}]. *)
Definition get_stats (o : http_outcome) : pyresult pyval :=
  match o with
  | HttpExc m => Ret (err m)
  | HttpOk r =>
      if Z.eqb (status_code r) 200 then Ret (json_or_err r)
      else Ret (err ("Status: " ++ z_to_dec (status_code r)))
  end.

(** [get_latest_blocks]: bare [except: return []]. *)
Definition get_latest_blocks (o : http_outcome) : pyresult pyval :=
  match o with
  | HttpExc _ => Ret (PList [])
  | HttpOk r =>
      if Z.eqb (status_code r) 200 then
        match body r with
        | JsonOk v => Ret v
        | JsonErr _ => Ret (PList [])
        end
      else Ret (PList [])
  end.

(** [get_balance]. *)
Definition get_balance (o : http_outcome) : pyresult pyval :=
  match o with
  | HttpExc m => Ret (err m)
  | HttpOk r =>
      if Z.eqb (status_code r) 200 then Ret (json_or_err r)
      else Ret (err ("Status: " ++ z_to_dec (status_code r)))
  end.

(** [get_feed]: bare [except: return []]. *)
Definition get_feed (o : http_outcome) : pyresult pyval :=
  match o with
  | HttpExc _ => Ret (PList [])
  | HttpOk r =>
      if Z.eqb (status_code r) 200 then
        match body r with
        | JsonOk v => Ret v
        | JsonErr _ => Ret (PList [])
        end
      else Ret (PList [])
  end.

(** [post_content]: [return response.json()] whatever the status. *)
Definition post_content (o : http_outcome) : pyresult pyval :=
  match o with
  | HttpExc m => Ret (err m)
  | HttpOk r => Ret (json_or_err r)
  end.

(** [send_transfer]: [return response.json()] whatever the status. *)
Definition send_transfer (o : http_outcome) : pyresult pyval :=
  match o with
  | HttpExc m => Ret (err m)
  | HttpOk r => Ret (json_or_err r)
  end.

End Explorer.

(* ------------------------------------------------------------------ *)
(** ** [WalletManager] (wallet.py) *)

(** The two attributes; [load_wallet] stores whatever [data.get] returns. *)
Record wallet := mkwallet { private_key : pyval; public_key : pyval }.

(** [__init__] before its [load_wallet()] call. *)
Definition wallet_init : wallet := mkwallet PNone PNone.

(** What [os.path.exists] and [open]/[json.load] find at [self.keyfile]. *)
Inductive keyfile :=
| NoFile
| Unreadable (msg : string)        (* [open] raises (permissions, directory) *)
| Contents (j : json_body).        (* [json.load] result *)

Definition py_type_name (v : pyval) : string :=
  match v with
  | PNone => "NoneType" | PBool _ => "bool" | PInt _ => "int"
  | PFloat _ => "float" | PStr _ => "str" | PList _ => "list"
  | PDict _ => "dict"
  end.

(** [data.get(k)] on a dict. *)
Definition dict_get_default (d : list (string * pyval)) (k : string) : pyval :=
  match dict_get d k with Some v => v | None => PNone end.

(** [load_wallet]: the call's result, the new attributes, and the lines it
    prints.  Every exception of the [try] block is caught and printed. *)
Definition load_wallet (f : keyfile) (w : wallet)
  : pyresult unit * wallet * list string :=
  match f with
  | NoFile => (Ret tt, w, [])
  | Unreadable m => (Ret tt, w, ["Error loading wallet: " ++ m])
  | Contents (JsonErr m) => (Ret tt, w, ["Error loading wallet: " ++ m])
  | Contents (JsonOk (PDict d)) =>
      (Ret tt, mkwallet (dict_get_default d "private_key")
                        (dict_get_default d "public_key"), [])
  | Contents (JsonOk v) =>
      (Ret tt, w, ["Error loading wallet: '" ++ py_type_name v
                   ++ "' object has no attribute 'get'"])
  end.

(** [WalletManager(keyfile)]: [__init__] then [load_wallet()]. *)
Definition wallet_new (f : keyfile) : wallet :=
  let '(_, w, _) := load_wallet f wallet_init in w.

Section Signing.

(** The [try] body of [WalletManager.sign]: hex-decode the private key,
    Ed25519-sign the UTF-8 bytes of the message, hex-encode the signature;
    [None] when one of these raises (the [except] prints and returns
    [None]).  PyNaCl is outside this development. *)
Variable ed25519_sign_hex : pyval -> string -> option string.

(** [WalletManager.sign]. *)
Definition wallet_sign (w : wallet) (message : string) : option string :=
  if negb (truthy (private_key w)) then None
  else ed25519_sign_hex (private_key w) message.

(* ------------------------------------------------------------------ *)
(** ** The signing pipelines of [MiningApp] (main.py) *)

(** Observable effects of a pipeline run, in order.  [ShowError]/[ShowInfo]
    are [messagebox] calls ([None] for a message built from the response);
    [SignCall m] is the call [self.wallet_manager.sign(m)]; [Submit p tx] is
    the POST of [tx] to path [p]; [Uncaught] is an exception escaping the
    Tk callback.  Widget updates after a submission are not modelled. *)
Inductive event :=
| ShowError (title : string) (msg : option string)
| ShowInfo (title : string)
| SignCall (message : string)
| Submit (path : string) (tx : pyval)
| Uncaught.

Definition opt_bind {A B} (o : option A) (k : A -> option B) : option B :=
  match o with Some a => k a | None => None end.
Local Notation "'let*' x := e 'in' k" := (opt_bind e (fun x => k))
  (at level 200, x name, e at level 100, k at level 200).

(** The [signable_dict] literal, identical in [post_tweet] and [send_coins]
    ([post_tweet] repeats its ["tx_id": ""] entry, which Python merges into
    the first one); [None] for a [KeyError] on [tx[...]]. *)
Definition signable_of (tx : list (string * pyval))
  : option (list (string * pyval)) :=
  let* from_wallet := dict_get tx "from_wallet" in
  let* to_wallet := dict_get tx "to_wallet" in
  let* ty := dict_get tx "type" in
  let* payload := dict_get tx "payload" in
  let* amount := dict_get tx "amount" in
  let* fee := dict_get tx "fee" in
  let* timestamp := dict_get tx "timestamp" in
  let* nonce := dict_get tx "nonce" in
  let* spk := dict_get tx "sender_public_key" in
  Some [("tx_id", PStr ""); ("from_wallet", from_wallet);
        ("to_wallet", to_wallet); ("type", ty); ("payload", payload);
        ("amount", amount); ("fee", fee); ("timestamp", timestamp);
        ("nonce", nonce); ("sender_public_key", spk)].


Definition signable_keys : list string :=
  ["tx_id"; "from_wallet"; "to_wallet"; "type"; "payload"; "amount"; "fee";
   "timestamp"; "nonce"; "sender_public_key"].

(** The [tx] literal of [send_coins]. *)
Definition transfer_tx (pub : pyval) (to_wallet : string) (amount : pyfloat)
  (timestamp : Z) : list (string * pyval) :=
  [("tx_id", PStr ""); ("from_wallet", pub); ("to_wallet", PStr to_wallet);
   ("type", PStr "TRANSFER"); ("payload", PDict []);
   ("amount", PFloat amount); ("fee", PInt 500);
   ("timestamp", PInt timestamp); ("nonce", PInt timestamp);
   ("sender_public_key", pub)].

(** The [payload_data] and [tx] literals of [post_tweet]. *)
Definition post_payload (content : string) (timestamp : Z) : pyval :=
  PDict [("content", PStr content); ("type", PStr "post");
         ("timestamp", PInt timestamp)].

Definition post_tx (pub : pyval) (content : string) (timestamp : Z)
  : list (string * pyval) :=
  [("tx_id", PStr ""); ("from_wallet", pub); ("to_wallet", pub);
   ("type", PStr "POST_CONTENT"); ("payload", post_payload content timestamp);
   ("amount", PInt 0); ("fee", PInt 0); ("timestamp", PInt timestamp);
   ("nonce", PInt timestamp); ("sender_public_key", pub)].

(** From [signature = self.wallet_manager.sign(signable_data)] on: the
    [if not signature] check, [tx["sender_signature"] = signature], the
    submission, and the [if "error" in res] test ([on_error res] are the
    effects of its true branch, [on_ok] those of its false branch). *)
Definition sign_and_submit (w : wallet) (tx : list (string * pyval))
  (path : string) (submit : pyresult pyval)
  (on_error : pyval -> list event) (on_ok : list event) : list event :=
  match signable_of tx with
  | None => [Uncaught]
  | Some sd =>
      let signable_data := dumps (PDict sd) in
      SignCall signable_data ::
      match wallet_sign w signable_data with
      | Some signature =>
          if truthy (PStr signature) then
            let tx' := dict_set tx "sender_signature" (PStr signature) in
            Submit path (PDict tx') ::
            match submit with
            | Raise _ => [Uncaught]
            | Ret res =>
                match py_in "error" res with
                | None => [Uncaught]
                | Some true => on_error res
                | Some false => on_ok
                end
            end
          else [ShowError "Error" (Some "Signing failed")]
      | None => [ShowError "Error" (Some "Signing failed")]
      end
  end.

(** [MiningApp.send_coins].  [to_text] is the [entry_to] text; [amount] is
    the result of [float(self.entry_amount.get().strip())], [None] when it
    raises; [timestamp] is [int(time.time() * 1000)]; [net] is the outcome
    of the POST made by [explorer_client.send_transfer]. *)
Definition send_coins (w : wallet) (to_text : string) (amount : option pyfloat)
  (timestamp : Z) (net : http_outcome) : list event :=
  let to_wallet := py_strip to_text in
  match amount with
  | None => [ShowError "Error" (Some "Invalid Amount")]
  | Some amt =>
      if negb (truthy (private_key w)) then
        [ShowError "Error" (Some "Wallet not loaded")]
      else
        let tx := transfer_tx (public_key w) to_wallet amt timestamp in
        sign_and_submit w tx "/api/users/transaction"
          (Explorer.send_transfer net)
          (fun res => match res with
                      | PDict _ => [ShowError "Transaction Failed" None]
                      | _ => [Uncaught]  (* [res.get] on a list or str *)
                      end)
          [ShowInfo "Success"]
  end.

(** [MiningApp.post_tweet].  [text] is [self.entry_post.get("1.0", tk.END)];
    the success branch's [refresh_feed] is not modelled. *)
Definition post_tweet (w : wallet) (text : string) (timestamp : Z)
  (net : http_outcome) : list event :=
  let content := py_strip text in
  if negb (truthy (PStr content)) then []
  else if negb (truthy (private_key w)) then
    [ShowError "Error" (Some "You need a wallet to post!")]
  else
    let tx := post_tx (public_key w) content timestamp in
    sign_and_submit w tx "/api/content/create" (Explorer.post_content net)
      (fun _ => [ShowError "Failed" None]) [ShowInfo "Success"].

End Signing.

(* ------------------------------------------------------------------ *)
(** ** [MinerClient] (miner.py) *)

Module Miner.

(** [trigger_mine]: [except Exception as e: return {"error": str(e)}];
    [requests] and [response.json()] raise only [Exception] subclasses. *)
Definition trigger_mine (o : http_outcome) : pyresult pyval :=
  match o with
  | HttpExc m => Ret (err m)
  | HttpOk r => Ret (json_or_err r)
  end.

(** Where a [_mining_loop] thread is:
    [Check]    at [while self.keep_mining];
    [Go]       the test was true, [trigger_mine] not yet entered;
    [InCall]   inside [trigger_mine] (the remote call is in flight);
    [Sleeping] in [time.sleep(interval)];
    [Done]     the thread has exited. *)
Inductive pc := Check | Go | InCall | Sleeping | Done.

Definition pc_eqb (a b : pc) : bool :=
  match a, b with
  | Check, Check | Go, Go | InCall, InCall | Sleeping, Sleeping
  | Done, Done => true
  | _, _ => false
  end.

(** The [MinerClient] attributes and every thread it has started, by
    index in start order; [mining_thread] is the index of the last one. *)
Record mstate := mkmstate {
  keep_mining : bool;
  mining_thread : option nat;
  threads : list pc }.

(** [MinerClient.__init__]. *)
Definition init : mstate := mkmstate false None [].

(** [start_loop]: [if self.keep_mining: return]; otherwise set the flag
    and start a new thread, which begins at the [while] test. *)
Definition start_loop (s : mstate) : mstate :=
  if keep_mining s then s
  else mkmstate true (Some (List.length (threads s))) ((threads s ++ [Check])%list).

(** [stop_loop]: clears the flag; its [join(timeout=1)] only waits, so the
    controller's next action may come after any interleaving of the
    workers, whether or not they have exited. *)
Definition stop_loop (s : mstate) : mstate :=
  mkmstate false (mining_thread s) (threads s).

(** One atomic action: a controller call, or one step of thread [i]. *)
Inductive label :=
| LStart
| LStop
| LCheck (i : nat)                     (* evaluates [while self.keep_mining] *)
| LCallBegin (i : nat)                 (* enters [trigger_mine] *)
| LCallEnd (i : nat) (o : http_outcome) (* the remote call ends with [o] *)
| LSleepEnd (i : nat).                 (* [time.sleep] returns *)

Fixpoint set_nth (l : list pc) (i : nat) (x : pc) : list pc :=
  match l, i with
  | [], _ => []
  | _ :: l', O => x :: l'
  | y :: l', S i' => y :: set_nth l' i' x
  end.

Definition set_thread (s : mstate) (i : nat) (x : pc) : mstate :=
  mkmstate (keep_mining s) (mining_thread s) (set_nth (threads s) i x).

(** Where a thread goes when [trigger_mine] finishes: into the sleep if it
    returned, out of the thread if an exception escaped. *)
Definition after_call (r : pyresult pyval) : pc :=
  match r with
  | Ret _ => Sleeping
  | Raise _ => Done
  end.

(** The step function: [None] when the action is not enabled. *)
Definition step (s : mstate) (l : label) : option mstate :=
  match l with
  | LStart => Some (start_loop s)
  | LStop => Some (stop_loop s)
  | LCheck i =>
      match nth_error (threads s) i with
      | Some Check =>
          Some (set_thread s i (if keep_mining s then Go else Done))
      | _ => None
      end
  | LCallBegin i =>
      match nth_error (threads s) i with
      | Some Go => Some (set_thread s i InCall)
      | _ => None
      end
  | LCallEnd i o =>
      match nth_error (threads s) i with
      | Some InCall => Some (set_thread s i (after_call (trigger_mine o)))
      | _ => None
      end
  | LSleepEnd i =>
      match nth_error (threads s) i with
      | Some Sleeping => Some (set_thread s i Check)
      | _ => None
      end
  end.

Fixpoint run (s : mstate) (ls : list label) : option mstate :=
  match ls with
  | [] => Some s
  | l :: ls' => match step s l with
                | Some s' => run s' ls'
                | None => None
                end
  end.

(** Threads that have not exited. *)
Definition live_workers (s : mstate) : nat :=
  List.length (filter (fun p => negb (pc_eqb p Done)) (threads s)).

Definition is_start (l : label) : bool :=
  match l with LStart => true | _ => false end.

(** Number of [trigger_mine] calls thread [i] begins along [ls]. *)
Definition calls_begun (i : nat) (ls : list label) : nat :=
  List.length (filter (fun l => match l with
                           | LCallBegin j => Nat.eqb i j
                           | _ => false
                           end) ls).

(** Number of sleeps thread [i] starts along [ls] (one per [trigger_mine]
    that returns). *)
Definition sleeps_begun (i : nat) (ls : list label) : nat :=
  List.length (filter (fun l => match l with
                           | LCallEnd j o =>
                               Nat.eqb i j && pc_eqb (after_call (trigger_mine o)) Sleeping
                           | _ => false
                           end) ls).

(** How many more [trigger_mine] calls, and how many more sleeps, a thread
    at [p] can start once [keep_mining] stays [False]. *)
Definition call_budget (p : pc) : nat :=
  match p with Go => 1 | _ => 0 end.

Definition sleep_budget (p : pc) : nat :=
  match p with Go | InCall => 1 | _ => 0 end.

Definition budget_of (f : pc -> nat) (s : mstate) (i : nat) : nat :=
  match nth_error (threads s) i with Some p => f p | None => 0 end.

End Miner.

(* ------------------------------------------------------------------ *)
(** ** Python equality and string literals *)




(** A text written with a single quote (code 39) in place of each double
    quote (code 34), so that JSON texts can be written down here. *)
Fixpoint with_quotes (s : string) : string :=
  match s with
  | EmptyString => EmptyString
  | String c s' =>
      String (if Nat.eqb (nat_of_ascii c) 39 then ascii_of_nat 34 else c)
             (with_quotes s')
  end.

(** The C1 literal as the spec gives it ([amount] written [10]). *)
Definition spec_transfer_literal : string :=
  with_quotes ("{'tx_id':'','from_wallet':'AA11','to_wallet':'BB22',"
    ++ "'type':'TRANSFER','payload':{},'amount':10,'fee':500,"
    ++ "'timestamp':1700000000000,'nonce':1700000000000,"
    ++ "'sender_public_key':'AA11'}").

(** The same text with [amount] written as Python writes the float [10.0]. *)
Definition code_transfer_literal : string :=
  with_quotes ("{'tx_id':'','from_wallet':'AA11','to_wallet':'BB22',"
    ++ "'type':'TRANSFER','payload':{},'amount':10.0,'fee':500,"
    ++ "'timestamp':1700000000000,'nonce':1700000000000,"
    ++ "'sender_public_key':'AA11'}").

(** The wallet of the C1 scenario: public key ["AA11"], a private key set. *)
Definition wallet_AA11 : wallet := mkwallet (PStr "0011") (PStr "AA11").

(** A signer that always returns the hex text ["5e"], and a 200 response
    with body [{}], for concrete runs. *)
Definition sign_stub : pyval -> string -> option string := fun _ _ => Some "5e".

Definition http_ok_empty : http_outcome := HttpOk (mkresponse 200 (JsonOk (PDict []))).

(** A failed fetch: [requests] raised, or the status is not 200. *)
Definition fetch_failed (o : http_outcome) : Prop :=
  match o with
  | HttpExc _ => True
  | HttpOk r => status_code r <> 200%Z
  end.

(** Predicates on pipeline traces. *)
Definition no_submit (evs : list event) : Prop :=
  forall p q, ~ In (Submit p q) evs.

Definition no_sign (evs : list event) : Prop :=
  forall m, ~ In (SignCall m) evs.

(** What a pipeline trace does with signing: either it submits nothing, or
    it starts with the one call [sign(dumps(sd))], where [sd] has exactly
    the ten signable keys (so no ["sender_signature"]) and ["tx_id"] bound
    to [""]; after it, either nothing is submitted, or exactly one POST
    follows at once, of the built [tx] (which had no ["sender_signature"])
    with the returned, non-empty signature added under that key. *)
Definition signed_then_submitted
  (sign : pyval -> string -> option string) (w : wallet) (evs : list event)
  : Prop :=
  no_submit evs \/
  exists sd rest,
    evs = SignCall (dumps (PDict sd)) :: rest /\
    map fst sd = signable_keys /\
    dict_get sd "tx_id" = Some (PStr "") /\
    no_sign rest /\
    (no_submit rest \/
     exists tx sig path after,
       wallet_sign sign w (dumps (PDict sd)) = Some sig /\ sig <> "" /\
       ~ In "sender_signature" (map fst tx) /\
       rest = Submit path (PDict (dict_set tx "sender_signature" (PStr sig)))
              :: after /\
       no_submit after /\ no_sign after).

(* ------------------------------------------------------------------ *)
(** ** [str()] and [repr()] *)

(** Characters [str.isprintable] rejects among code points 0..255. *)
Definition nonprintable (n : nat) : bool :=
  Nat.ltb n 32 || (Nat.leb 127 n && Nat.leb n 160) || Nat.eqb n 173.

Definition repr_char (q : ascii) (c : ascii) : string :=
  let n := nat_of_ascii c in
  if Nat.eqb n 92 then "\\"
  else if Ascii.eqb c q then "\" ++ String c ""
  else if Nat.eqb n 9 then "\t"
  else if Nat.eqb n 10 then "\n"
  else if Nat.eqb n 13 then "\r"
  else if nonprintable n then
    "\x" ++ String (hex_char (n / 16)) (String (hex_char (n mod 16)) "")
  else String c "".

Fixpoint repr_chars (q : ascii) (s : string) : string :=
  match s with
  | EmptyString => ""
  | String c s' => repr_char q c ++ repr_chars q s'
  end.

Definition squote : ascii := ascii_of_nat 39.
Definition dquote : ascii := ascii_of_nat 34.

(** [repr] of a [str]: single quotes, unless the text has a single quote
    and no double quote. *)
Definition str_repr (s : string) : string :=
  let q := if str_contains (String squote "") s && negb (str_contains (String dquote "") s)
           then dquote else squote in
  String q (repr_chars q s ++ String q "").

(** [repr(v)]. *)
Fixpoint py_repr (v : pyval) : string :=
  match v with
  | PNone => "None"
  | PBool b => if b then "True" else "False"
  | PInt z => z_to_dec z
  | PFloat f => float_repr f
  | PStr s => str_repr s
  | PList l =>
      let fix items (l : list pyval) : string :=
        match l with
        | [] => ""
        | [x] => py_repr x
        | x :: l' => py_repr x ++ ", " ++ items l'
        end in
      "[" ++ items l ++ "]"
  | PDict d =>
      let fix entries (d : list (string * pyval)) : string :=
        match d with
        | [] => ""
        | [(k, x)] => str_repr k ++ ": " ++ py_repr x
        | (k, x) :: d' => str_repr k ++ ": " ++ py_repr x ++ ", " ++ entries d'
        end in
      "{" ++ entries d ++ "}"
  end.

(** [str(v)], also what an f-string field [{v}] writes. *)
Definition py_str (v : pyval) : string :=
  match v with
  | PStr s => s
  | _ => py_repr v
  end.

(* ------------------------------------------------------------------ *)
(** ** [EnvManager] (main.py) *)

Definition nl : ascii := ascii_of_nat 10.
Definition cr : ascii := ascii_of_nat 13.

(** Text-mode reading ([newline=None]): ["\r\n"] and a lone ["\r"] become
    ["\n"]. *)
Fixpoint translate_newlines (s : string) : string :=
  match s with
  | EmptyString => EmptyString
  | String c s' =>
      if Ascii.eqb c cr then
        String nl (match s' with
                   | String d s'' =>
                       if Ascii.eqb d nl then translate_newlines s''
                       else translate_newlines s'
                   | EmptyString => EmptyString
                   end)
      else String c (translate_newlines s')
  end.

(** [f.readlines()]: each line keeps its ["\n"]; the last one may lack it. *)
Fixpoint readlines (s : string) : list string :=
  match s with
  | EmptyString => []
  | String c s' =>
      if Ascii.eqb c nl then String nl "" :: readlines s'
      else match readlines s' with
           | [] => [String c ""]
           | l :: ls => String c l :: ls
           end
  end.

(** [f.writelines(lines)]. *)
Fixpoint concat_lines (ls : list string) : string :=
  match ls with
  | [] => ""
  | l :: ls' => l ++ concat_lines ls'
  end.

(** [s.split('=', 1)] on a text that contains ['=']. *)
Fixpoint split_eq (s : string) : string * string :=
  match s with
  | EmptyString => ("", "")
  | String c s' =>
      if Nat.eqb (nat_of_ascii c) 61 then ("", s')
      else let '(a, b) := split_eq s' in (String c a, b)
  end.

Definition starts_with_hash (s : string) : bool :=
  match s with
  | String c _ => Nat.eqb (nat_of_ascii c) 35
  | EmptyString => false
  end.

(** The test shared by [load] and [set]: [stripped = line.strip()],
    [stripped and not stripped.startswith('#')] and ['=' in stripped];
    then [stripped.split('=', 1)] (raw key and raw value). *)
Definition env_split_line (line : string) : option (string * string) :=
  let stripped := py_strip line in
  if truthy (PStr stripped) && negb (starts_with_hash stripped)
     && str_contains "=" stripped
  then Some (split_eq stripped) else None.

(** [s.rstrip()]; [py_strip s] is [rstrip (lstrip s)]. *)
Definition rstrip (s : string) : string :=
  rev_string (lstrip (rev_string s "")) "".

(** Whether [line] is a line that [load] and [set] read as an assignment
    of [key]. *)
Definition env_assigns (key line : string) : bool :=
  match env_split_line line with
  | Some (k, _) => String.eqb (py_strip k) key
  | None => false
  end.

Record envm := mkenv { env_lines : list string; env_vars : list (string * pyval) }.

(** One iteration of the [for line in self.lines] loop of [load]. *)
Definition env_parse_line (d : list (string * pyval)) (line : string)
  : list (string * pyval) :=
  match env_split_line line with
  | Some (k, v) => dict_set d (py_strip k) (PStr (py_strip v))
  | None => d
  end.

(** The loop of [load], from [self.env_vars = {}]. *)
Definition env_parse (lines : list string) : list (string * pyval) :=
  fold_left env_parse_line lines [].

(** [EnvManager.load]: [None] when the file does not exist, otherwise its
    text (decoded as UTF-8). *)
Definition env_load (file : option string) : envm :=
  match file with
  | None => mkenv [] []
  | Some text => let lines := readlines (translate_newlines text) in
                 mkenv lines (env_parse lines)
  end.

(** [EnvManager.get]. *)
Definition env_get (m : envm) (key : string) (default : pyval) : pyval :=
  match dict_get (env_vars m) key with Some v => v | None => default end.

(** The [for line in self.lines] loop of [set]: the new lines and
    [updated]. *)
Fixpoint env_update_lines (key newline : string) (lines : list string)
  : list string * bool :=
  match lines with
  | [] => ([], false)
  | line :: rest =>
      let '(rest', upd) := env_update_lines key newline rest in
      match env_split_line line with
      | Some (k, _) =>
          if String.eqb (py_strip k) key then (newline :: rest', true)
          else (line :: rest', upd)
      | None => (line :: rest', upd)
      end
  end.

Definition ends_with_nl (s : string) : bool :=
  match rev_string s "" with
  | String c _ => Ascii.eqb c nl
  | EmptyString => false
  end.

(** [EnvManager.set]. *)
Definition env_set (m : envm) (key : string) (value : pyval) : envm :=
  let vars := dict_set (env_vars m) key value in
  let newline := key ++ "=" ++ py_str value ++ String nl "" in
  let '(new_lines, updated) := env_update_lines key newline (env_lines m) in
  if updated then mkenv new_lines vars
  else
    let sep := match rev new_lines with
               | last :: _ => if ends_with_nl last then [] else [String nl ""]
               | [] => []
               end in
    mkenv (new_lines ++ sep ++ [newline])%list vars.

(** Text-mode writing: every ["\n"] becomes [os.linesep]. *)
Fixpoint translate_out (linesep : string) (s : string) : string :=
  match s with
  | EmptyString => EmptyString
  | String c s' =>
      if Ascii.eqb c nl then linesep ++ translate_out linesep s'
      else String c (translate_out linesep s')
  end.

(** The two values of [os.linesep]: POSIX and Windows. *)
Definition linesep_ok (linesep : string) : bool :=
  String.eqb linesep (String nl "") || String.eqb linesep (String cr (String nl "")).

(** [EnvManager.save]: the file contents after [f.writelines(self.lines)]. *)
Definition env_save (linesep : string) (m : envm) : string :=
  translate_out linesep (concat_lines (env_lines m)).

(** What a later [EnvManager()] reads back for [key] after [save]. *)
Definition env_reloaded (linesep : string) (m : envm) (key : string) : option pyval :=
  dict_get (env_vars (env_load (Some (env_save linesep m)))) key.

Fixpoint has_char (c : ascii) (s : string) : bool :=
  match s with
  | EmptyString => false
  | String d s' => Ascii.eqb c d || has_char c s'
  end.

(** A text that stays on one line of the file. *)
Definition one_line (s : string) : bool := negb (has_char nl s) && negb (has_char cr s).

(** A key [set] can write so that [load] reads it back: on one line, no
    ['='], not starting with ['#'], no surrounding whitespace. *)
Definition key_ok (key : string) : bool :=
  one_line key && negb (has_char "=" key) && negb (starts_with_hash key)
  && String.eqb (py_strip key) key.

(** A ["\n"] appears at most as the last character. *)
Fixpoint nl_only_last (s : string) : bool :=
  match s with
  | EmptyString => true
  | String c s' => if Ascii.eqb c nl then String.eqb s' "" else nl_only_last s'
  end.

Definition line_fine (l : string) : bool :=
  negb (String.eqb l "") && nl_only_last l && negb (has_char cr l).

(** The shape of [self.lines] ([readlines] output, kept by [set]): no
    empty line, no ["\r"], ["\n"] only at a line end, and a line without
    its ["\n"] is the last one or followed by the separator line ["\n"]. *)
Fixpoint lines_ok (ls : list string) : bool :=
  match ls with
  | [] => true
  | l :: rest =>
      line_fine l &&
      match rest with
      | [] => true
      | l2 :: _ => ends_with_nl l || String.eqb l2 (String nl "")
      end && lines_ok rest
  end.

(** The managers a run of the tool produces: [load], then [set] calls with
    the keys and values above. *)
Inductive env_reachable : envm -> Prop :=
| reach_load (file : option string) : env_reachable (env_load file)
| reach_set (m : envm) (key : string) (value : pyval) :
    env_reachable m -> key_ok key = true -> one_line (py_str value) = true ->
    env_reachable (env_set m key value).

(** [MiningApp.save_config]: the [PORT] entry text, the peers entry text,
    the host combobox selection; the manager after its three [set] calls
    (the text [save] writes is [env_save] of it). *)
Definition default_peers : string :=
  "https://tracenet-blockchain-136028201808.us-central1.run.app".

Definition save_config (m : envm) (port_text peers_text selection : string) : envm :=
  let m1 := env_set m "PORT" (PStr port_text) in
  let peers := py_strip peers_text in
  let peers := if negb (truthy (PStr peers)) then default_peers else peers in
  let m2 := env_set m1 "PEERS" (PStr peers) in
  if str_contains "Local" selection then env_set m2 "HOST" (PStr "127.0.0.1")
  else env_set m2 "HOST" (PStr "0.0.0.0").

(** [MiningApp.bind_wallet]: [confirm] is the answer to the [askyesno]
    dialog; [None] when it stops at "No wallet loaded!" or at "No". *)
Definition bind_wallet (w : wallet) (m : envm) (confirm : bool) : option envm :=
  if negb (truthy (private_key w)) then None
  else if confirm then Some (env_set m "NODE_WALLET_PRIVATE_KEY" (private_key w))
  else None.

(* ------------------------------------------------------------------ *)
(** ** Dashboard refresh, feed and port cleanup (main.py) *)

(** [v[k]] with a [str] key: [KeyError] for a missing key, [TypeError] on
    anything but a dict (exception messages are not modelled). *)
Definition subscript (v : pyval) (k : string) : pyresult pyval :=
  match v with
  | PDict d => match dict_get d k with
               | Some x => Ret x
               | None => Raise "KeyError"
               end
  | _ => Raise "TypeError"
  end.

(** What the Explorer tab shows: the offline notice (a fixed text with an
    emoji, outside the code points modelled) or a text. *)
Inductive stats_text :=
| OfflineNotice
| StatsText (s : string).

(** Effects of one dashboard refresh, in order: the two requests, clearing
    and filling [txt_stats], and [lbl_balance.config(text=...)]. *)
Inductive ui_event :=
| ReqStats
| ReqBalance (addr : pyval)
| StatsCleared
| StatsInsert (t : stats_text)
| BalanceLabel (text : string).

(** The "Update Balance Label" part of [_update_ui_with_data]. *)
Definition balance_update (is_online : bool) (balance_info : pyval)
  : list ui_event * pyresult unit :=
  if is_online && truthy balance_info then
    match py_in "balance" balance_info with
    | None => ([], Raise "TypeError")
    | Some true =>
        match subscript balance_info "balance" with
        | Ret b => ([BalanceLabel ("Balance: " ++ py_str b ++ " TRC")], Ret tt)
        | Raise e => ([], Raise e)
        end
    | Some false =>
        match py_in "error" balance_info with
        | None => ([], Raise "TypeError")
        | Some true =>
            match subscript balance_info "error" with
            | Ret e => ([BalanceLabel ("Balance: Error (" ++ py_str e ++ ")")], Ret tt)
            | Raise e => ([], Raise e)
            end
        | Some false => ([], Ret tt)
        end
    end
  else ([BalanceLabel "Balance: Node Offline"], Ret tt).

(** [MiningApp._update_ui_with_data(stats, balance_info)]; an exception
    ends the Tk callback. *)
Definition update_ui_with_data (stats balance_info : pyval)
  : list ui_event * pyresult unit :=
  match py_in "error" stats with
  | None => ([StatsCleared], Raise "TypeError")
  | Some true =>
      match subscript stats "error" with
      | Raise e => ([StatsCleared], Raise e)
      | Ret e =>
          let error_msg := py_str e in
          if str_contains "WinError 10061" error_msg
             || str_contains "Connection refused" error_msg
          then let '(evs, r) := balance_update false balance_info in
               (StatsCleared :: StatsInsert OfflineNotice :: evs, r)
          else let '(evs, r) := balance_update true balance_info in
               (StatsCleared :: StatsInsert (StatsText ("Error: " ++ error_msg)) :: evs, r)
      end
  | Some false =>
      let '(evs, r) := balance_update true balance_info in
      (StatsCleared :: StatsInsert (StatsText (py_str stats)) :: evs, r)
  end.

(** One refresh: [_fetch_stats_background] (the [get_stats] and, with a
    wallet, the [get_balance] request) followed by the
    [_update_ui_with_data] callback it schedules.  [public_key] is
    [self.wallet_manager.public_key]; the two outcomes are those of the
    two requests. *)
Definition stats_cycle (public_key : pyval) (stats_o balance_o : http_outcome)
  : list ui_event * pyresult unit :=
  match Explorer.get_stats stats_o with
  | Raise _ => ([ReqStats], Ret tt)
  | Ret stats =>
      let '(req, bal) :=
        if truthy public_key then
          match Explorer.get_balance balance_o with
          | Ret b => ([ReqBalance public_key], Ret b)
          | Raise e => ([ReqBalance public_key], Raise e)
          end
        else ([], Ret PNone) in
      match bal with
      | Raise _ => (ReqStats :: req, Ret tt)
      | Ret balance_info =>
          let '(evs, r) := update_ui_with_data stats balance_info in
          ((ReqStats :: req) ++ evs, r)%list
      end
  end.

(** Effects of [refresh_feed] on [txt_feed]. *)
Inductive feed_event :=
| FeedCleared
| FeedInsert (s : string).

(** [v[:8]]: a [str] or [list] prefix; [None] when slicing raises. *)
Definition slice8 (v : pyval) : option pyval :=
  match v with
  | PStr s => Some (PStr (substring 0 8 s))
  | PList l => Some (PList (firstn 8 l))
  | _ => None
  end.

Definition dashes20 : string := "--------------------".

Definition feed_notice : string := "No posts or node offline.".

(** The [try] body of the loop for one [post]: the inserted text, [None]
    when it raises ([post] without [.get], or an author that cannot be
    sliced), which [except: pass] skips. *)
Definition render_post (post : pyval) : option string :=
  match post with
  | PDict d =>
      let author := match dict_get d "author" with Some v => v | None => PStr "Unknown" end in
      match slice8 author with
      | Some user =>
          let content := match dict_get d "content" with Some v => v | None => PStr "" end in
          Some ("@" ++ py_str user ++ ": " ++ py_str content ++ String nl ""
                ++ dashes20 ++ String nl "")
      | None => None
      end
  | _ => None
  end.

(** [for post in feed]: list elements, dict keys, or the characters of a
    [str]; [None] for a [TypeError] (not iterable). *)
Definition py_iter (v : pyval) : option (list pyval) :=
  match v with
  | PList l => Some l
  | PDict d => Some (map (fun kv => PStr (fst kv)) d)
  | PStr s => Some (map (fun c => PStr (String c "")) (list_ascii_of_string s))
  | _ => None
  end.

(** [MiningApp.refresh_feed], given the outcome of the feed request. *)
Definition refresh_feed (o : http_outcome) : list feed_event * pyresult unit :=
  match Explorer.get_feed o with
  | Raise e => ([], Raise e)
  | Ret feed =>
      if negb (truthy feed) then ([FeedCleared; FeedInsert feed_notice], Ret tt)
      else match py_in "error" feed with
           | None => ([FeedCleared], Raise "TypeError")
           | Some true => ([FeedCleared; FeedInsert feed_notice], Ret tt)
           | Some false =>
               match py_iter feed with
               | None => ([FeedCleared], Raise "TypeError")
               | Some posts =>
                   (FeedCleared :: flat_map (fun p => match render_post p with
                                                      | Some s => [FeedInsert s]
                                                      | None => []
                                                      end) posts, Ret tt)
               end
           end
  end.

(** [s.split()]: the maximal runs of non-whitespace characters;
    [cur] is the current run, reversed. *)
Fixpoint split_ws (s : string) (cur : string) : list string :=
  match s with
  | EmptyString => if String.eqb cur "" then [] else [rev_string cur ""]
  | String c s' =>
      if is_py_space c then
        if String.eqb cur "" then split_ws s' ""
        else rev_string cur "" :: split_ws s' ""
      else split_ws s' (String c cur)
  end.

Definition py_split (s : string) : list string := split_ws s "".

(** A port text of decimal digits only, as typed in the port entry.  For
    such a text the shell passes [:port] to [findstr] unchanged and its
    literal and regular-expression matching agree; other texts (blanks,
    which [int(port)] in [_is_port_in_use] accepts but [cmd.exe] splits
    off, quotes, metacharacters) are outside the model below. *)
Definition port_digits (port : string) : bool :=
  negb (String.eqb port "") &&
  forallb (fun c => Nat.leb 48 (nat_of_ascii c) && Nat.leb (nat_of_ascii c) 57)
          (list_ascii_of_string port).

(** [MiningApp._kill_process_on_port(port)] for a port text of digits
    ([port_digits]): the PIDs handed to [taskkill], in order.
    [netstat_lines] are the lines of the [netstat -ano] output; [findstr
    :port] keeps those containing [":" ++ port], and an empty result
    (findstr's exit status 1 makes [check_output] raise) is swallowed by
    the bare [except]. *)
Definition kill_process_on_port (netstat_lines : list string) (port : string)
  : list string :=
  let found := filter (fun l => str_contains (":" ++ port) l) netstat_lines in
  let fix go (ls : list string) : list string :=
    match ls with
    | [] => []
    | line :: rest =>
        if str_contains "LISTENING" line then
          match rev (py_split line) with
          | pid :: _ => pid :: go rest
          | [] => []
          end
        else go rest
    end in
  go found.

(** A small [.env] text: a CRLF line, padded key and value, a comment, a
    repeated key and no final newline. *)
Definition env_example : string :=
  "PORT=3000" ++ String cr (String nl "") ++ " PEERS = a " ++ String nl ""
  ++ "# PORT=1" ++ String nl "" ++ "PORT=3001".

(* ================================================================== *)
(** * Properties *)

Ltac trace_tac :=
  let p := fresh "p" in let q := fresh "q" in let H := fresh "H" in
  intros p q H; simpl in H; intuition discriminate.

Ltac trace_sign_tac :=
  let m := fresh "m" in let H := fresh "H" in
  intros m H; simpl in H; intuition discriminate.

Lemma signable_of_shape (tx sd : list (string * pyval)) :
  signable_of tx = Some sd ->
  map fst sd = signable_keys /\ dict_get sd "tx_id" = Some (PStr "").
Proof.
  unfold signable_of, opt_bind.
  repeat match goal with
         | |- context [dict_get tx ?k] => destruct (dict_get tx k)
         end; intro H; try discriminate.
  injection H as <-. split; reflexivity.
Qed.

Lemma sign_and_submit_signed (sign : pyval -> string -> option string)
  (w : wallet) (tx : list (string * pyval)) (path : string)
  (submit : pyresult pyval) (on_error : pyval -> list event)
  (on_ok : list event) :
  (forall r, no_submit (on_error r) /\ no_sign (on_error r)) ->
  no_submit on_ok -> no_sign on_ok ->
  ~ In "sender_signature" (map fst tx) ->
  signed_then_submitted sign w
    (sign_and_submit sign w tx path submit on_error on_ok).
Proof.
  intros Herr Hok Hok' Htx. unfold sign_and_submit.
  destruct (signable_of tx) as [sd|] eqn:Hsd; [| left; trace_tac].
  destruct (signable_of_shape tx sd Hsd) as [Hk Hid].
  right. eexists sd, _. split; [reflexivity|]. split; [exact Hk|].
  split; [exact Hid|].
  destruct (wallet_sign sign w (dumps (PDict sd))) as [sig|] eqn:Hsig.
  - destruct (truthy (PStr sig)) eqn:Ht.
    + assert (Hne : sig <> "").
      { intro E; subst sig; discriminate Ht. }
      assert (Hafter : no_submit (match submit with
                          | Raise _ => [Uncaught]
                          | Ret res =>
                              match py_in "error" res with
                              | None => [Uncaught]
                              | Some true => on_error res
                              | Some false => on_ok
                              end
                          end) /\
                       no_sign (match submit with
                          | Raise _ => [Uncaught]
                          | Ret res =>
                              match py_in "error" res with
                              | None => [Uncaught]
                              | Some true => on_error res
                              | Some false => on_ok
                              end
                          end)).
      { destruct submit as [res|m].
        - destruct (py_in "error" res) as [[|]|].
          + apply Herr.
          + split; assumption.
          + split; [trace_tac | trace_sign_tac].
        - split; [trace_tac | trace_sign_tac]. }
      destruct Hafter as [Ha Ha'].
      split.
      * intros m [E|Hm]; [discriminate E|]. exact (Ha' m Hm).
      * right. exists tx, sig, path. eexists. repeat split; try assumption; reflexivity.
    + split; [trace_sign_tac | left; trace_tac].
  - split; [trace_sign_tac | left; trace_tac].
Qed.

Lemma pipelines_signed (sign : pyval -> string -> option string) (w : wallet) :
  (forall to_text amount timestamp net,
     signed_then_submitted sign w (send_coins sign w to_text amount timestamp net)) /\
  (forall text timestamp net,
     signed_then_submitted sign w (post_tweet sign w text timestamp net)).
Proof.
  split.
  - intros to_text [amt|] timestamp net; unfold send_coins.
    + destruct (negb (truthy (private_key w))); [left; trace_tac|].
      apply sign_and_submit_signed.
      * intros [] ; split; first [trace_tac | trace_sign_tac].
      * trace_tac.
      * trace_sign_tac.
      * simpl. intuition discriminate.
    + left; trace_tac.
  - intros text timestamp net; unfold post_tweet.
    destruct (negb (truthy (PStr (py_strip text)))); [left; trace_tac|].
    destruct (negb (truthy (private_key w))); [left; trace_tac|].
    apply sign_and_submit_signed.
    + intros _; split; first [trace_tac | trace_sign_tac].
    + trace_tac.
    + trace_sign_tac.
    + simpl. intuition discriminate.
Qed.

(** ** C1 *)

(** C1: in the transfer pipeline the amount is a Python float
    ([float(entry_amount)]), and [json.dumps] writes it [10.0]: for the
    C1 scenario (entry text ["10"]) the string handed to [sign] is the
    spec's literal with ["amount":10.0], never ["amount":10], whatever the
    signer and the network do. *)
Theorem send_coins_c1_signable_string :
  forall (sign : pyval -> string -> option string) (net : http_outcome),
    (exists rest,
       send_coins sign wallet_AA11 "BB22" (Some (mkfloat 10 0)) 1700000000000 net
       = SignCall code_transfer_literal :: rest) /\
    code_transfer_literal <> spec_transfer_literal.
Proof.
  intros sign net. split.
  - eexists. reflexivity.
  - intro E. assert (B : String.eqb code_transfer_literal spec_transfer_literal = true)
      by (rewrite E; apply String.eqb_refl).
    vm_compute in B. discriminate B.
Qed.

(** ** C2 *)

(** C2: in both pipelines ([send_coins], [post_tweet]) the bytes signed are
    [json.dumps] of a dict with exactly the keys [tx_id, from_wallet,
    to_wallet, type, payload, amount, fee, timestamp, nonce,
    sender_public_key] (never [sender_signature]) and [tx_id] bound to
    [""]; the signature is added to the transaction only after [sign]
    returned it, and only that signed transaction is submitted. *)
Theorem pipelines_sign_before_attach :
  forall (sign : pyval -> string -> option string) (w : wallet),
  (forall to_text amount timestamp net,
     signed_then_submitted sign w (send_coins sign w to_text amount timestamp net)) /\
  (forall text timestamp net,
     signed_then_submitted sign w (post_tweet sign w text timestamp net)) /\
  ~ In "sender_signature" signable_keys.
Proof.
  intros sign w. destruct (pipelines_signed sign w) as [H1 H2].
  split; [exact H1 | split; [exact H2 |]].
  simpl. intuition discriminate.
Qed.

(** ** C5 *)

Lemma signed_then_submitted_submit (sign : pyval -> string -> option string)
  (w : wallet) (evs : list event) (p : string) (q : pyval) :
  signed_then_submitted sign w evs -> In (Submit p q) evs ->
  exists m sig post,
    evs = SignCall m :: post /\ In (Submit p q) post /\
    wallet_sign sign w m = Some sig /\ sig <> "".
Proof.
  intros [Hn | (sd & rest & -> & _ & _ & _ & Hr)] Hin.
  - exfalso. exact (Hn p q Hin).
  - destruct Hr as [Hn | (tx & sig & path & after & Hs & Hne & _ & -> & _ & _)].
    + destruct Hin as [E | Hin]; [discriminate E | exfalso; exact (Hn p q Hin)].
    + exists (dumps (PDict sd)), sig, (Submit path (PDict (dict_set tx "sender_signature" (PStr sig))) :: after).
      destruct Hin as [E | Hin]; [discriminate E|].
      repeat split; assumption.
Qed.

(** C5: [WalletManager.sign] returns [None] when no private key is loaded
    (a falsy [private_key]); and in [send_coins] and [post_tweet] a
    submission happens only after the single [sign] call returned a
    non-empty signature, so a [None] (or empty) signing result stops the
    pipeline before any network call. *)
Theorem signing_failure_stops_pipelines :
  forall (sign : pyval -> string -> option string),
  (forall w m, truthy (private_key w) = false -> wallet_sign sign w m = None) /\
  (forall w to_text amount timestamp net p q,
     In (Submit p q) (send_coins sign w to_text amount timestamp net) ->
     exists m sig post,
       send_coins sign w to_text amount timestamp net = SignCall m :: post /\
       In (Submit p q) post /\ wallet_sign sign w m = Some sig /\ sig <> "") /\
  (forall w text timestamp net p q,
     In (Submit p q) (post_tweet sign w text timestamp net) ->
     exists m sig post,
       post_tweet sign w text timestamp net = SignCall m :: post /\
       In (Submit p q) post /\ wallet_sign sign w m = Some sig /\ sig <> "").
Proof.
  intros sign. split; [| split].
  - intros w m H. unfold wallet_sign. rewrite H. reflexivity.
  - intros w to_text amount timestamp net p q Hin.
    apply signed_then_submitted_submit; [apply (proj1 (pipelines_signed sign w)) | exact Hin].
  - intros w text timestamp net p q Hin.
    apply signed_then_submitted_submit; [apply (proj2 (pipelines_signed sign w)) | exact Hin].
Qed.

Lemma signing_failure_stops_pipelines_witness :
  truthy (private_key wallet_init) = false /\
  wallet_sign sign_stub wallet_init "m" = None /\
  In (Submit "/api/users/transaction"
        (PDict (dict_set (transfer_tx (PStr "AA11") "BB22" (mkfloat 10 0) 1)
                  "sender_signature" (PStr "5e"))))
     (send_coins sign_stub wallet_AA11 "BB22" (Some (mkfloat 10 0)) 1 http_ok_empty) /\
  (exists m sig post,
     send_coins sign_stub wallet_AA11 "BB22" (Some (mkfloat 10 0)) 1 http_ok_empty
       = SignCall m :: post /\
     In (Submit "/api/users/transaction"
           (PDict (dict_set (transfer_tx (PStr "AA11") "BB22" (mkfloat 10 0) 1)
                     "sender_signature" (PStr "5e")))) post /\
     wallet_sign sign_stub wallet_AA11 m = Some sig /\ sig <> "") /\
  In (Submit "/api/content/create"
        (PDict (dict_set (post_tx (PStr "AA11") "hi" 1)
                  "sender_signature" (PStr "5e"))))
     (post_tweet sign_stub wallet_AA11 "hi" 1 http_ok_empty) /\
  (exists m sig post,
     post_tweet sign_stub wallet_AA11 "hi" 1 http_ok_empty = SignCall m :: post /\
     In (Submit "/api/content/create"
           (PDict (dict_set (post_tx (PStr "AA11") "hi" 1)
                     "sender_signature" (PStr "5e")))) post /\
     wallet_sign sign_stub wallet_AA11 m = Some sig /\ sig <> "").
Proof.
  assert (H1 : truthy (private_key wallet_init) = false) by reflexivity.
  assert (H2 : In (Submit "/api/users/transaction"
        (PDict (dict_set (transfer_tx (PStr "AA11") "BB22" (mkfloat 10 0) 1)
                  "sender_signature" (PStr "5e"))))
     (send_coins sign_stub wallet_AA11 "BB22" (Some (mkfloat 10 0)) 1 http_ok_empty))
    by (simpl; right; left; reflexivity).
  assert (H3 : In (Submit "/api/content/create"
        (PDict (dict_set (post_tx (PStr "AA11") "hi" 1)
                  "sender_signature" (PStr "5e"))))
     (post_tweet sign_stub wallet_AA11 "hi" 1 http_ok_empty))
    by (simpl; right; left; reflexivity).
  split; [exact H1|].
  split; [exact (proj1 (signing_failure_stops_pipelines sign_stub) wallet_init "m" H1)|].
  split; [exact H2|].
  split; [exact (proj1 (proj2 (signing_failure_stops_pipelines sign_stub)) _ _ _ _ _ _ _ H2)|].
  split; [exact H3|].
  exact (proj2 (proj2 (signing_failure_stops_pipelines sign_stub)) _ _ _ _ _ _ H3).
Defined.

(** ** C3 *)

(** C3, counterexample: [send_coins] does not reject a negative amount: the
    entry text ["-5"] ([float] gives [-5.0]) yields a signed transaction
    with amount [-5.0] that is submitted. *)
Lemma send_coins_submits_negative_amount :
  In (Submit "/api/users/transaction"
        (PDict (dict_set (transfer_tx (PStr "AA11") "BB22" (mkfloat (-5) 0) 1)
                  "sender_signature" (PStr "5e"))))
     (send_coins sign_stub wallet_AA11 "BB22" (Some (mkfloat (-5) 0)) 1 http_ok_empty) /\
  dict_get (transfer_tx (PStr "AA11") "BB22" (mkfloat (-5) 0) 1) "amount"
    = Some (PFloat (mkfloat (-5) 0)).
Proof. split; [simpl; right; left|]; reflexivity. Qed.

(** C3, as the code has it: the only amount check of [send_coins] is that
    [float(...)] succeeds (otherwise only the "Invalid Amount" error is
    shown, nothing is built, signed or sent); a parsed amount, whatever
    its sign, goes unchanged into the signed data and, once the signature
    is obtained, into the submitted transaction; the fee is the constant
    [500], not user input. *)
Theorem send_coins_amount_validation :
  forall (sign : pyval -> string -> option string) (w : wallet)
         (to_text : string) (timestamp : Z) (net : http_outcome),
  send_coins sign w to_text None timestamp net
    = [ShowError "Error" (Some "Invalid Amount")] /\
  (forall amt : pyfloat,
     truthy (private_key w) = true ->
     exists sd rest,
       send_coins sign w to_text (Some amt) timestamp net
         = SignCall (dumps (PDict sd)) :: rest /\
       dict_get sd "amount" = Some (PFloat amt) /\
       dict_get sd "fee" = Some (PInt 500) /\
       (forall sig : string,
          wallet_sign sign w (dumps (PDict sd)) = Some sig -> sig <> "" ->
          exists tx rest',
            rest = Submit "/api/users/transaction" (PDict tx) :: rest' /\
            dict_get tx "amount" = Some (PFloat amt) /\
            dict_get tx "fee" = Some (PInt 500))).
Proof.
  intros sign w to_text timestamp net. split; [reflexivity|].
  intros amt Hk. unfold send_coins. rewrite Hk. simpl negb. cbv iota.
  unfold sign_and_submit. simpl signable_of.
  eexists _, _. split; [reflexivity|]. split; [reflexivity|]. split; [reflexivity|].
  intros sig Hs Hne. rewrite Hs.
  assert (T : truthy (PStr sig) = true).
  { simpl. apply negb_true_iff, String.eqb_neq, Hne. }
  rewrite T. eexists _, _. split; [reflexivity|]. split; reflexivity.
Qed.

Lemma send_coins_amount_validation_witness :
  truthy (private_key wallet_AA11) = true /\
  exists sd rest,
    send_coins sign_stub wallet_AA11 "BB22" (Some (mkfloat (-5) 0)) 1 http_ok_empty
      = SignCall (dumps (PDict sd)) :: rest /\
    dict_get sd "amount" = Some (PFloat (mkfloat (-5) 0)) /\
    dict_get sd "fee" = Some (PInt 500) /\
    (forall sig : string,
       wallet_sign sign_stub wallet_AA11 (dumps (PDict sd)) = Some sig -> sig <> "" ->
       exists tx rest',
         rest = Submit "/api/users/transaction" (PDict tx) :: rest' /\
         dict_get tx "amount" = Some (PFloat (mkfloat (-5) 0)) /\
         dict_get tx "fee" = Some (PInt 500)).
Proof.
  assert (H : truthy (private_key wallet_AA11) = true) by reflexivity.
  split; [exact H|].
  exact (proj2 (send_coins_amount_validation sign_stub wallet_AA11 "BB22" 1 http_ok_empty)
           (mkfloat (-5) 0) H).
Defined.

(** ** C8 *)




(** ** Mining loop *)

Module MinerFacts.
Import Miner.

Lemma nth_error_set_nth_same (l : list pc) (i : nat) (x : pc) :
  nth_error (set_nth l i x) i =
  match nth_error l i with Some _ => Some x | None => None end.
Proof.
  revert i; induction l as [|y l IH]; intros [|i]; simpl; auto.
Qed.

Lemma nth_error_set_nth_other (l : list pc) (i j : nat) (x : pc) :
  i <> j -> nth_error (set_nth l i x) j = nth_error l j.
Proof.
  revert i j; induction l as [|y l IH]; intros [|i] [|j] H; simpl; auto;
    try (exfalso; lia).
Qed.

Lemma budget_set_other (f : pc -> nat) (s : mstate) (i j : nat) (x : pc) :
  i <> j -> budget_of f (set_thread s i x) j = budget_of f s j.
Proof.
  intro H. unfold budget_of, set_thread; simpl.
  rewrite nth_error_set_nth_other by exact H. reflexivity.
Qed.

Lemma budget_set_same (f : pc -> nat) (s : mstate) (i : nat) (p x : pc) :
  nth_error (threads s) i = Some p ->
  budget_of f (set_thread s i x) i = f x.
Proof.
  intro H. unfold budget_of, set_thread; simpl.
  rewrite nth_error_set_nth_same, H. reflexivity.
Qed.

Lemma calls_begun_cons (i : nat) (l : label) (ls : list label) :
  calls_begun i (l :: ls) = calls_begun i [l] + calls_begun i ls.
Proof. unfold calls_begun; simpl; destruct l; try reflexivity; destruct (Nat.eqb i i0); reflexivity. Qed.

Lemma sleeps_begun_cons (i : nat) (l : label) (ls : list label) :
  sleeps_begun i (l :: ls) = sleeps_begun i [l] + sleeps_begun i ls.
Proof.
  unfold sleeps_begun; simpl; destruct l; try reflexivity.
  destruct (Nat.eqb i i0 && pc_eqb (after_call (trigger_mine o)) Sleeping); reflexivity.
Qed.

(** One step other than [start_loop] with the flag cleared keeps it
    cleared and spends each thread's budgets for what it starts. *)
Lemma step_budget (s s' : mstate) (l : label) :
  keep_mining s = false -> is_start l = false -> step s l = Some s' ->
  keep_mining s' = false /\
  forall i, calls_begun i [l] + budget_of call_budget s' i <= budget_of call_budget s i /\
            sleeps_begun i [l] + budget_of sleep_budget s' i <= budget_of sleep_budget s i.
Proof.
  intros Hk Hl Hs.
  destruct l as [| |j|j|j o|j]; try discriminate Hl; simpl in Hs.
  - injection Hs as <-. split; [reflexivity|].
    intro i; unfold calls_begun, sleeps_begun, budget_of; simpl; lia.
  - destruct (nth_error (threads s) j) as [[]|] eqn:Hj; try discriminate Hs.
    injection Hs as <-. rewrite Hk. split; [exact Hk|].
    intro i; unfold calls_begun, sleeps_begun; simpl.
    destruct (Nat.eq_dec j i) as [<-|Hne].
    + rewrite !(budget_set_same _ _ _ Check Done Hj).
      unfold budget_of; rewrite Hj; simpl; lia.
    + rewrite !budget_set_other by exact Hne. lia.
  - destruct (nth_error (threads s) j) as [[]|] eqn:Hj; try discriminate Hs.
    injection Hs as <-. split; [exact Hk|].
    intro i; unfold calls_begun, sleeps_begun; simpl.
    destruct (Nat.eq_dec j i) as [<-|Hne].
    + rewrite Nat.eqb_refl.
      rewrite !(budget_set_same _ _ _ Go InCall Hj).
      unfold budget_of; rewrite Hj; simpl; lia.
    + rewrite !budget_set_other by exact Hne.
      apply Nat.eqb_neq in Hne. rewrite Nat.eqb_sym, Hne. simpl. lia.
  - destruct (nth_error (threads s) j) as [[]|] eqn:Hj; try discriminate Hs.
    injection Hs as <-. split; [exact Hk|].
    intro i; unfold calls_begun, sleeps_begun; simpl.
    destruct (Nat.eq_dec j i) as [<-|Hne].
    + rewrite Nat.eqb_refl.
      rewrite !(budget_set_same _ _ _ InCall _ Hj).
      unfold budget_of; rewrite Hj.
      destruct o; simpl; lia.
    + rewrite !budget_set_other by exact Hne.
      apply Nat.eqb_neq in Hne. rewrite Nat.eqb_sym, Hne. simpl. lia.
  - destruct (nth_error (threads s) j) as [[]|] eqn:Hj; try discriminate Hs.
    injection Hs as <-. split; [exact Hk|].
    intro i; unfold calls_begun, sleeps_begun; simpl.
    destruct (Nat.eq_dec j i) as [<-|Hne].
    + rewrite !(budget_set_same _ _ _ Sleeping Check Hj).
      unfold budget_of; rewrite Hj; simpl; lia.
    + rewrite !budget_set_other by exact Hne. lia.
Qed.

Lemma run_budget (ls : list label) (s s' : mstate) :
  keep_mining s = false -> forallb (fun l => negb (is_start l)) ls = true ->
  run s ls = Some s' ->
  forall i, calls_begun i ls <= budget_of call_budget s i /\
            sleeps_begun i ls <= budget_of sleep_budget s i.
Proof.
  revert s; induction ls as [|l ls IH]; intros s Hk Hall Hrun i.
  - unfold calls_begun, sleeps_begun; simpl; lia.
  - simpl in Hall, Hrun. apply andb_prop in Hall as [Hl Hall].
    apply negb_true_iff in Hl.
    destruct (step s l) as [s1|] eqn:Hs; [|discriminate Hrun].
    destruct (step_budget s s1 l Hk Hl Hs) as [Hk1 Hb].
    destruct (IH s1 Hk1 Hall Hrun i) as [Hc Hsl].
    destruct (Hb i) as [Hc1 Hs1].
    rewrite calls_begun_cons, sleeps_begun_cons. lia.
Qed.

End MinerFacts.

(** ** C6 *)

(** C6, counterexample: [start_loop] checks only the flag.  Start, let the
    worker enter its sleep, stop (the 1 s [join] times out during the
    5 s sleep), start again: a second worker is spawned while the first is
    alive, and the first, seeing [keep_mining] [True] again, goes on with
    another iteration, so two workers loop at once. *)
Lemma start_after_timed_out_stop_two_workers :
  Miner.run Miner.init
    [Miner.LStart; Miner.LCheck 0; Miner.LCallBegin 0;
     Miner.LCallEnd 0 http_ok_empty; Miner.LStop; Miner.LStart]
    = Some (Miner.mkmstate true (Some 1) [Miner.Sleeping; Miner.Check]) /\
  Miner.live_workers (Miner.mkmstate true (Some 1) [Miner.Sleeping; Miner.Check]) = 2 /\
  Miner.run (Miner.mkmstate true (Some 1) [Miner.Sleeping; Miner.Check])
    [Miner.LSleepEnd 0; Miner.LCheck 0; Miner.LCheck 1]
    = Some (Miner.mkmstate true (Some 1) [Miner.Go; Miner.Go]).
Proof. repeat split; reflexivity. Qed.

(** C6, as the code has it: [start_loop] is a no-op whenever
    [keep_mining] is set, so two starts in a row spawn one worker;
    [stop_loop] twice is the same as once.  (Liveness of an earlier worker
    is not checked; see the counterexample above.) *)
Theorem start_stop_idempotent :
  (forall s, Miner.keep_mining s = true -> Miner.start_loop s = s) /\
  (forall s, Miner.start_loop (Miner.start_loop s) = Miner.start_loop s) /\
  (forall s, List.length (Miner.threads (Miner.start_loop (Miner.start_loop s)))
             <= S (List.length (Miner.threads s))) /\
  (forall s, Miner.stop_loop (Miner.stop_loop s) = Miner.stop_loop s).
Proof.
  split; [| split; [| split]].
  - intros s H. unfold Miner.start_loop. rewrite H. reflexivity.
  - intro s. unfold Miner.start_loop.
    destruct (Miner.keep_mining s) eqn:H; simpl; try rewrite H; reflexivity.
  - intro s. destruct (Miner.keep_mining s) eqn:H.
    + unfold Miner.start_loop; rewrite !H; lia.
    + unfold Miner.start_loop at 2; rewrite H.
      unfold Miner.start_loop; simpl. rewrite length_app; simpl; lia.
  - intro s. reflexivity.
Qed.

Lemma start_stop_idempotent_witness :
  Miner.keep_mining (Miner.start_loop Miner.init) = true /\
  Miner.start_loop (Miner.start_loop Miner.init) = Miner.start_loop Miner.init.
Proof.
  assert (H : Miner.keep_mining (Miner.start_loop Miner.init) = true) by reflexivity.
  exact (conj H (proj1 start_stop_idempotent _ H)).
Defined.

(** ** C7 *)

(** C7, counterexample: [stop_loop] while [trigger_mine] is in flight; the
    call returns after the flag is cleared and the worker still sleeps its
    full interval before it re-checks the flag. *)
Lemma worker_sleeps_after_stop :
  Miner.run Miner.init
    [Miner.LStart; Miner.LCheck 0; Miner.LCallBegin 0; Miner.LStop;
     Miner.LCallEnd 0 http_ok_empty]
    = Some (Miner.mkmstate false (Some 0) [Miner.Sleeping]) /\
  Miner.sleeps_begun 0 [Miner.LCallEnd 0 http_ok_empty] = 1.
Proof. split; reflexivity. Qed.

(** C7, as the code has it: once [keep_mining] is [False], and as long as
    [start_loop] is not called again, each worker begins at most one more
    [trigger_mine] call (only one that has passed the [while] test and not
    yet entered the call) and starts at most one more sleep (only one that
    has not yet finished its current call); a worker already sleeping or at
    the test begins neither. *)
Theorem stopped_loop_bounded_work :
  forall (s s' : Miner.mstate) (ls : list Miner.label),
  Miner.keep_mining s = false ->
  forallb (fun l => negb (Miner.is_start l)) ls = true ->
  Miner.run s ls = Some s' ->
  forall i,
    Miner.calls_begun i ls <= Miner.budget_of Miner.call_budget s i /\
    Miner.sleeps_begun i ls <= Miner.budget_of Miner.sleep_budget s i /\
    Miner.budget_of Miner.call_budget s i <= 1 /\
    Miner.budget_of Miner.sleep_budget s i <= 1 /\
    (nth_error (Miner.threads s) i = Some Miner.Sleeping \/
     nth_error (Miner.threads s) i = Some Miner.Check ->
     Miner.calls_begun i ls = 0 /\ Miner.sleeps_begun i ls = 0).
Proof.
  intros s s' ls Hk Hall Hrun i.
  destruct (MinerFacts.run_budget ls s s' Hk Hall Hrun i) as [Hc Hs].
  split; [exact Hc|]. split; [exact Hs|].
  unfold Miner.budget_of in *.
  split; [destruct (nth_error (Miner.threads s) i) as [[]|]; simpl; lia|].
  split; [destruct (nth_error (Miner.threads s) i) as [[]|]; simpl; lia|].
  intros [E|E]; rewrite E in Hc, Hs; simpl in Hc, Hs; lia.
Qed.

Lemma stopped_loop_bounded_work_witness :
  let s := Miner.mkmstate false (Some 0) [Miner.InCall] in
  let ls := [Miner.LCallEnd 0 http_ok_empty; Miner.LSleepEnd 0; Miner.LCheck 0] in
  Miner.run s ls = Some (Miner.mkmstate false (Some 0) [Miner.Done]) /\
  Miner.calls_begun 0 ls <= Miner.budget_of Miner.call_budget s 0 /\
  Miner.sleeps_begun 0 ls <= Miner.budget_of Miner.sleep_budget s 0.
Proof.
  intros s ls.
  assert (H : Miner.run s ls = Some (Miner.mkmstate false (Some 0) [Miner.Done]))
    by reflexivity.
  destruct (stopped_loop_bounded_work s _ ls eq_refl eq_refl H 0) as [H1 [H2 _]].
  exact (conj H (conj H1 H2)).
Defined.

(** ** C9 *)

(** C9: [trigger_mine] returns a value for every outcome of the remote
    call (an exception becomes [{"error": str(e)}]); so a worker whose
    call ends, whatever its outcome, goes into its sleep (never exits), and
    if [keep_mining] is still set it passes the [while] test and calls
    again. *)
Theorem mining_loop_survives_remote_failure :
  (forall o, exists v, Miner.trigger_mine o = Ret v) /\
  (forall (s : Miner.mstate) (i : nat) (o : http_outcome),
     nth_error (Miner.threads s) i = Some Miner.InCall ->
     Miner.keep_mining s = true ->
     exists s1 s2,
       Miner.run s [Miner.LCallEnd i o] = Some s1 /\
       nth_error (Miner.threads s1) i = Some Miner.Sleeping /\
       Miner.run s1 [Miner.LSleepEnd i; Miner.LCheck i] = Some s2 /\
       nth_error (Miner.threads s2) i = Some Miner.Go).
Proof.
  split.
  - intros [r|m]; eexists; reflexivity.
  - intros s i o Hi Hk.
    assert (Hr : Miner.trigger_mine o = Ret (match o with
                                             | HttpExc m => err m
                                             | HttpOk r => json_or_err r
                                             end))
      by (destruct o; reflexivity).
    set (s1 := Miner.set_thread s i Miner.Sleeping).
    set (s2 := Miner.set_thread (Miner.set_thread s1 i Miner.Check) i Miner.Go).
    assert (E1 : nth_error (Miner.threads s1) i = Some Miner.Sleeping)
      by (simpl; rewrite MinerFacts.nth_error_set_nth_same, Hi; reflexivity).
    assert (E2 : nth_error (Miner.threads (Miner.set_thread s1 i Miner.Check)) i
                 = Some Miner.Check).
    { change (nth_error (Miner.set_nth (Miner.threads s1) i Miner.Check) i
              = Some Miner.Check).
      rewrite MinerFacts.nth_error_set_nth_same, E1; reflexivity. }
    assert (E3 : nth_error (Miner.threads s2) i = Some Miner.Go).
    { change (nth_error (Miner.set_nth (Miner.threads (Miner.set_thread s1 i Miner.Check))
                           i Miner.Go) i = Some Miner.Go).
      rewrite MinerFacts.nth_error_set_nth_same, E2; reflexivity. }
    assert (E0 : Miner.keep_mining (Miner.set_thread s1 i Miner.Check) = true)
      by exact Hk.
    exists s1, s2. split; [simpl; rewrite Hi, Hr; reflexivity|].
    split; [exact E1|]. split; [|exact E3].
    cbv beta iota delta [Miner.run Miner.step]. rewrite E1.
    cbv beta iota delta [Miner.run Miner.step]. rewrite E2, E0. reflexivity.
Qed.

Lemma mining_loop_survives_remote_failure_witness :
  let s := Miner.mkmstate true (Some 0) [Miner.InCall] in
  nth_error (Miner.threads s) 0 = Some Miner.InCall /\ Miner.keep_mining s = true /\
  exists s1 s2,
    Miner.run s [Miner.LCallEnd 0 (HttpExc "Connection refused")] = Some s1 /\
    nth_error (Miner.threads s1) 0 = Some Miner.Sleeping /\
    Miner.run s1 [Miner.LSleepEnd 0; Miner.LCheck 0] = Some s2 /\
    nth_error (Miner.threads s2) 0 = Some Miner.Go.
Proof.
  intro s.
  assert (H1 : nth_error (Miner.threads s) 0 = Some Miner.InCall) by reflexivity.
  assert (H2 : Miner.keep_mining s = true) by reflexivity.
  exact (conj H1 (conj H2 (proj2 mining_loop_survives_remote_failure s 0 _ H1 H2))).
Defined.

(** ** C4 *)

(** C4, counterexample: a key file that exists but is not JSON.
    [load_wallet] returns [None] like in every other case, no error
    reaches the caller; it prints a line and leaves both keys [None]. *)
Lemma load_wallet_malformed_returns_nothing :
  load_wallet (Contents (JsonErr "Expecting value: line 1 column 1 (char 0)"))
    wallet_init
  = (Ret tt, wallet_init,
     ["Error loading wallet: Expecting value: line 1 column 1 (char 0)"]) /\
  wallet_new (Contents (JsonErr "Expecting value: line 1 column 1 (char 0)"))
  = mkwallet PNone PNone.
Proof. split; reflexivity. Qed.

(** C4, as the code has it: [load_wallet] never raises and always returns
    [None].  Without a key file the keys are left as they were; when the
    file cannot be opened, is not JSON, or is JSON but not an object, an
    "Error loading wallet" line is printed and the keys are left as they
    were ([None] right after construction); a JSON object sets each key to
    its entry, [None] when absent, with nothing printed. *)
Theorem load_wallet_outcomes :
  (forall f w, fst (fst (load_wallet f w)) = Ret tt) /\
  (forall w, load_wallet NoFile w = (Ret tt, w, [])) /\
  (forall w m, load_wallet (Unreadable m) w = (Ret tt, w, ["Error loading wallet: " ++ m])) /\
  (forall w m, load_wallet (Contents (JsonErr m)) w
               = (Ret tt, w, ["Error loading wallet: " ++ m])) /\
  (forall w v, (forall d, v <> PDict d) ->
     exists line, load_wallet (Contents (JsonOk v)) w = (Ret tt, w, [line])
                  /\ str_prefixb "Error loading wallet: " line = true) /\
  (forall w d, load_wallet (Contents (JsonOk (PDict d))) w
     = (Ret tt, mkwallet (dict_get_default d "private_key")
                         (dict_get_default d "public_key"), [])).
Proof.
  split; [| split; [| split; [| split; [| split]]]].
  - intros [| m | [v|m]] w; try reflexivity. destruct v; reflexivity.
  - reflexivity.
  - reflexivity.
  - reflexivity.
  - intros w v Hv. destruct v; try (exfalso; eapply Hv; reflexivity);
      eexists; split; reflexivity.
  - reflexivity.
Qed.

Lemma load_wallet_outcomes_witness :
  (forall d, PList [] <> PDict d) /\
  exists line, load_wallet (Contents (JsonOk (PList []))) wallet_init
               = (Ret tt, wallet_init, [line])
               /\ str_prefixb "Error loading wallet: " line = true.
Proof.
  assert (H : forall d, PList [] <> PDict d) by (intros d E; discriminate E).
  exact (conj H (proj1 (proj2 (proj2 (proj2 (proj2 load_wallet_outcomes))))
                   wallet_init (PList []) H)).
Defined.

(** ** C10 *)

(** C10, counterexample: [post_content] (and likewise [send_transfer])
    does not turn a non-200 response into [{"error": ...}]: a 400 whose
    body is [{"message": "bad"}] is returned as is, with no ["error"] key. *)
Lemma post_content_passes_non200_body :
  let o := HttpOk (mkresponse 400 (JsonOk (PDict [("message", PStr "bad")]))) in
  fetch_failed o /\
  Explorer.post_content o = Ret (PDict [("message", PStr "bad")]) /\
  Explorer.send_transfer o = Ret (PDict [("message", PStr "bad")]) /\
  py_in "error" (PDict [("message", PStr "bad")]) = Some false.
Proof. split; [discriminate | repeat split]. Qed.

(** C10, as the code has it: on a failed fetch [get_latest_blocks] and
    [get_feed] return [[]] (also on a 200 with a non-JSON body), where
    [get_stats] and [get_balance] return an [{"error": ...}] mapping;
    [post_content] and [send_transfer] return [{"error": str(e)}] when the
    request or [response.json()] raises, and otherwise the parsed body
    whatever the status.  None of the six raises. *)
Theorem explorer_failure_results :
  (forall o, fetch_failed o ->
     Explorer.get_latest_blocks o = Ret (PList []) /\
     Explorer.get_feed o = Ret (PList []) /\
     (exists m, Explorer.get_stats o = Ret (err m)) /\
     (exists m, Explorer.get_balance o = Ret (err m))) /\
  (forall m, Explorer.get_latest_blocks (HttpOk (mkresponse 200 (JsonErr m))) = Ret (PList []) /\
             Explorer.get_feed (HttpOk (mkresponse 200 (JsonErr m))) = Ret (PList [])) /\
  (forall m, Explorer.post_content (HttpExc m) = Ret (err m) /\
             Explorer.send_transfer (HttpExc m) = Ret (err m)) /\
  (forall r, Explorer.post_content (HttpOk r) = Ret (json_or_err r) /\
             Explorer.send_transfer (HttpOk r) = Ret (json_or_err r)) /\
  (forall o, exists v1 v2 v3 v4 v5 v6,
     Explorer.get_stats o = Ret v1 /\ Explorer.get_latest_blocks o = Ret v2 /\
     Explorer.get_balance o = Ret v3 /\ Explorer.get_feed o = Ret v4 /\
     Explorer.post_content o = Ret v5 /\ Explorer.send_transfer o = Ret v6).
Proof.
  split; [| split; [| split; [| split]]].
  - intros [r|m] Hf; simpl in Hf.
    + unfold Explorer.get_latest_blocks, Explorer.get_feed,
        Explorer.get_stats, Explorer.get_balance.
      apply Z.eqb_neq in Hf. rewrite Hf.
      repeat split; eexists; reflexivity.
    + repeat split; eexists; reflexivity.
  - intro m; split; reflexivity.
  - intro m; split; reflexivity.
  - intro r; split; reflexivity.
  - intros [[st [v|m]]|m]; unfold Explorer.get_stats, Explorer.get_latest_blocks,
      Explorer.get_balance, Explorer.get_feed, Explorer.post_content,
      Explorer.send_transfer; simpl;
      try destruct (Z.eqb st 200);
      do 6 eexists; repeat split; reflexivity.
Qed.

Lemma explorer_failure_results_witness :
  let o := HttpOk (mkresponse 503 (JsonErr "Expecting value")) in
  fetch_failed o /\
  Explorer.get_latest_blocks o = Ret (PList []) /\
  Explorer.get_feed o = Ret (PList []) /\
  (exists m, Explorer.get_stats o = Ret (err m)) /\
  (exists m, Explorer.get_balance o = Ret (err m)).
Proof.
  intro o.
  assert (H : fetch_failed o) by discriminate.
  exact (conj H (proj1 explorer_failure_results o H)).
Defined.

(* ================================================================== *)
(** * The configuration, dashboard, feed and port code of the GUI *)

Module EnvFacts.

Lemma append_assoc_s (a b c : string) : (a ++ b) ++ c = a ++ (b ++ c).
Proof. induction a as [|x a IH]; simpl; [reflexivity | now rewrite IH]. Qed.

Lemma append_nil_s (a : string) : a ++ "" = a.
Proof. induction a as [|x a IH]; simpl; [reflexivity | now rewrite IH]. Qed.

Lemma rev_string_acc (s acc : string) : rev_string s acc = rev_string s "" ++ acc.
Proof.
  revert acc; induction s as [|c s IH]; intro acc; simpl; [reflexivity|].
  rewrite (IH (String c acc)), (IH (String c "")), append_assoc_s. reflexivity.
Qed.

Lemma rev_string_app (a b : string) :
  rev_string (a ++ b) "" = rev_string b "" ++ rev_string a "".
Proof.
  induction a as [|c a IH]; simpl.
  - now rewrite append_nil_s.
  - rewrite (rev_string_acc (a ++ b)), IH, append_assoc_s, (rev_string_acc a (String c "")) .
    reflexivity.
Qed.

Lemma rev_string_involutive (s : string) : rev_string (rev_string s "") "" = s.
Proof.
  induction s as [|c s IH]; simpl; [reflexivity|].
  rewrite (rev_string_acc s (String c "")), rev_string_app, IH. reflexivity.
Qed.

Lemma rev_string_empty (s : string) : rev_string s "" = "" -> s = "".
Proof. intro H. rewrite <- (rev_string_involutive s), H. reflexivity. Qed.

Lemma eqb_empty_rev (s : string) :
  String.eqb (rev_string s "") "" = String.eqb s "".
Proof.
  destruct (String.eqb s "") eqn:E.
  - apply String.eqb_eq in E; subst; reflexivity.
  - apply String.eqb_neq. intro H. apply rev_string_empty in H; subst.
    discriminate.
Qed.

Lemma lstrip_app (a b : string) :
  lstrip (a ++ b) = if String.eqb (lstrip a) "" then lstrip b else lstrip a ++ b.
Proof.
  induction a as [|c a IH]; simpl; [reflexivity|].
  destruct (is_py_space c); [exact IH | reflexivity].
Qed.

Lemma rstrip_cons (c : ascii) (s : string) :
  rstrip (String c s) =
  if String.eqb (rstrip s) "" then (if is_py_space c then "" else String c "")
  else String c (rstrip s).
Proof.
  unfold rstrip; simpl.
  rewrite (rev_string_acc s (String c "")), lstrip_app, eqb_empty_rev.
  destruct (String.eqb (lstrip (rev_string s "")) "").
  - simpl. destruct (is_py_space c); reflexivity.
  - rewrite rev_string_app. reflexivity.
Qed.

Lemma py_strip_split (s : string) : py_strip s = rstrip (lstrip s).
Proof. reflexivity. Qed.

Lemma lstrip_idem (s : string) : lstrip (lstrip s) = lstrip s.
Proof.
  induction s as [|c s IH]; simpl; [reflexivity|].
  destruct (is_py_space c) eqn:E; [exact IH | simpl; now rewrite E].
Qed.

Lemma rstrip_empty : rstrip "" = "".
Proof. reflexivity. Qed.

Lemma rstrip_idem (s : string) : rstrip (rstrip s) = rstrip s.
Proof.
  induction s as [|c s IH]; [reflexivity|].
  rewrite (rstrip_cons c s).
  destruct (String.eqb (rstrip s) "") eqn:E.
  - destruct (is_py_space c) eqn:Sp; [reflexivity|].
    rewrite rstrip_cons, rstrip_empty, Sp. reflexivity.
  - rewrite rstrip_cons, IH, E. reflexivity.
Qed.

Lemma lstrip_rstrip (s : string) : lstrip (rstrip s) = rstrip (lstrip s).
Proof.
  induction s as [|c s IH]; [reflexivity|].
  rewrite rstrip_cons. simpl lstrip at 2.
  destruct (String.eqb (rstrip s) "") eqn:E.
  - apply String.eqb_eq in E.
    destruct (is_py_space c) eqn:Sp.
    + rewrite <- IH, E. reflexivity.
    + simpl. rewrite Sp, rstrip_cons, E, Sp. reflexivity.
  - destruct (is_py_space c) eqn:Sp.
    + simpl. rewrite Sp. exact IH.
    + simpl. rewrite Sp, rstrip_cons, E. reflexivity.
Qed.

Lemma py_strip_rstrip (s : string) : py_strip (rstrip s) = py_strip s.
Proof.
  rewrite !py_strip_split, lstrip_rstrip, rstrip_idem. reflexivity.
Qed.

Lemma py_strip_idem (s : string) : py_strip (py_strip s) = py_strip s.
Proof.
  rewrite !py_strip_split, lstrip_rstrip, lstrip_idem, rstrip_idem. reflexivity.
Qed.

Lemma rstrip_snoc_space (s : string) (c : ascii) :
  is_py_space c = true -> rstrip (s ++ String c "") = rstrip s.
Proof.
  intro Sp. induction s as [|x s IH]; simpl.
  - rewrite rstrip_cons, rstrip_empty, Sp. reflexivity.
  - rewrite !(rstrip_cons x), IH. reflexivity.
Qed.

Lemma py_strip_snoc_space (s : string) (c : ascii) :
  is_py_space c = true -> py_strip (s ++ String c "") = py_strip s.
Proof.
  intro Sp. rewrite !py_strip_split, lstrip_app.
  destruct (String.eqb (lstrip s) "") eqn:E.
  - apply String.eqb_eq in E. rewrite E. simpl. rewrite Sp. reflexivity.
  - apply rstrip_snoc_space, Sp.
Qed.

Lemma rstrip_mid (k r : string) (c : ascii) :
  is_py_space c = false -> rstrip (k ++ String c r) = k ++ String c (rstrip r).
Proof.
  intro Sp. induction k as [|x k IH]; simpl.
  - rewrite rstrip_cons, Sp. destruct (String.eqb (rstrip r) "") eqn:E; [|reflexivity].
    apply String.eqb_eq in E. rewrite E. reflexivity.
  - rewrite rstrip_cons, IH.
    destruct k; reflexivity.
Qed.

(* lengths *)
Lemma rev_string_length (s acc : string) :
  String.length (rev_string s acc) = String.length s + String.length acc.
Proof.
  revert acc; induction s as [|c s IH]; intro acc; simpl; [reflexivity|].
  rewrite IH. simpl. lia.
Qed.

Lemma lstrip_shrinks (s : string) :
  lstrip s = s \/ String.length (lstrip s) < String.length s.
Proof.
  induction s as [|c s IH]; simpl; [now left|].
  destruct (is_py_space c); [right | now left].
  destruct IH as [-> | IH]; simpl; lia.
Qed.

Lemma lstrip_length (s : string) : String.length (lstrip s) <= String.length s.
Proof. destruct (lstrip_shrinks s) as [-> | H]; lia. Qed.

Lemma rstrip_length (s : string) : String.length (rstrip s) <= String.length s.
Proof.
  unfold rstrip. rewrite rev_string_length, Nat.add_0_r.
  pose proof (lstrip_length (rev_string s "")). rewrite rev_string_length in H.
  simpl in H. lia.
Qed.

Lemma py_strip_fixed_lstrip (s : string) : py_strip s = s -> lstrip s = s.
Proof.
  intro H. destruct (lstrip_shrinks s) as [E | E]; [exact E|].
  pose proof (rstrip_length (lstrip s)). rewrite <- py_strip_split, H in H0. lia.
Qed.

End EnvFacts.
Import EnvFacts.

Module EnvFacts2.

Lemma dict_get_set (d : list (string * pyval)) (k k' : string) (v : pyval) :
  dict_get (dict_set d k v) k' = if String.eqb k' k then Some v else dict_get d k'.
Proof.
  induction d as [|[k0 v0] d IH]; simpl.
  - reflexivity.
  - destruct (String.eqb k k0) eqn:E; simpl.
    + apply String.eqb_eq in E; subst.
      destruct (String.eqb k' k0); reflexivity.
    + rewrite IH. destruct (String.eqb k' k) eqn:E1; [|reflexivity].
      apply String.eqb_eq in E1; subst. rewrite E. reflexivity.
Qed.

Lemma fold_parse_congr (ls : list string) (d1 d2 : list (string * pyval)) (k : string) :
  dict_get d1 k = dict_get d2 k ->
  dict_get (fold_left env_parse_line ls d1) k = dict_get (fold_left env_parse_line ls d2) k.
Proof.
  revert d1 d2; induction ls as [|l ls IH]; intros d1 d2 H; simpl; [exact H|].
  apply IH. unfold env_parse_line.
  destruct (env_split_line l) as [[k0 v0]|]; [|exact H].
  rewrite !dict_get_set. destruct (String.eqb k (py_strip k0)); [reflexivity|exact H].
Qed.

Lemma parse_line_assigns (key l : string) :
  env_assigns key l = true ->
  exists v, forall d, env_parse_line d l = dict_set d key v.
Proof.
  unfold env_assigns, env_parse_line.
  destruct (env_split_line l) as [[k0 v0]|]; [|discriminate].
  intro E. apply String.eqb_eq in E. subst. eauto.
Qed.

Lemma parse_line_other (key l : string) (d : list (string * pyval)) :
  env_assigns key l = false ->
  dict_get (env_parse_line d l) key = dict_get d key.
Proof.
  unfold env_assigns, env_parse_line.
  destruct (env_split_line l) as [[k0 v0]|]; [|reflexivity].
  intro E. rewrite dict_get_set, String.eqb_sym, E. reflexivity.
Qed.

Lemma parse_line_snoc_nl (l : string) (d : list (string * pyval)) :
  env_parse_line d (l ++ String nl "") = env_parse_line d l.
Proof.
  unfold env_parse_line, env_split_line.
  rewrite py_strip_snoc_space by reflexivity. reflexivity.
Qed.

Lemma parse_line_nl (d : list (string * pyval)) : env_parse_line d (String nl "") = d.
Proof. reflexivity. Qed.

(** The line [set] writes. *)
Lemma has_char_app (c : ascii) (a b : string) :
  has_char c (a ++ b) = has_char c a || has_char c b.
Proof. induction a as [|x a IH]; simpl; [reflexivity|]. rewrite IH, orb_assoc. reflexivity. Qed.

Lemma split_eq_mid (k r : string) :
  has_char "=" k = false -> split_eq (k ++ String "=" r) = (k, r).
Proof.
  induction k as [|c k IH]; intro H; simpl; [reflexivity|].
  simpl in H. apply orb_false_iff in H as [H1 H2].
  rewrite IH by exact H2.
  destruct (Nat.eqb (nat_of_ascii c) 61) eqn:E; [|reflexivity].
  apply Nat.eqb_eq in E. exfalso.
  assert (c = "=")%char as ->.
  { rewrite <- (ascii_nat_embedding c), E. reflexivity. }
  discriminate.
Qed.

Lemma str_contains_app_r (p a b : string) :
  str_contains p b = true -> str_contains p (a ++ b) = true.
Proof.
  intro H. induction a as [|c a IH]; simpl; [exact H|].
  rewrite IH, orb_true_r. reflexivity.
Qed.

Lemma key_ok_lstrip (key r : string) :
  key_ok key = true -> lstrip (key ++ String "=" r) = key ++ String "=" r.
Proof.
  unfold key_ok. intro H. apply andb_true_iff in H as [_ H].
  apply String.eqb_eq, py_strip_fixed_lstrip in H.
  rewrite lstrip_app. destruct (String.eqb (lstrip key) "") eqn:E.
  - apply String.eqb_eq in E. rewrite H in E. subst. reflexivity.
  - rewrite H. reflexivity.
Qed.

Lemma parse_newline (key v : string) (d : list (string * pyval)) :
  key_ok key = true ->
  env_parse_line d (key ++ String "=" (v ++ String nl "")) = dict_set d key (PStr (py_strip v)).
Proof.
  intro K. unfold env_parse_line, env_split_line.
  rewrite py_strip_split, key_ok_lstrip by exact K.
  rewrite rstrip_mid by reflexivity.
  rewrite rstrip_snoc_space by reflexivity.
  pose proof K as K'. unfold key_ok in K'.
  apply andb_true_iff in K' as [K' Kstrip]. apply andb_true_iff in K' as [K' Khash].
  apply andb_true_iff in K' as [_ Keq].
  apply negb_true_iff in Khash, Keq. apply String.eqb_eq in Kstrip.
  assert (Htr : truthy (PStr (key ++ String "=" (rstrip v))) = true)
    by (destruct key; reflexivity).
  assert (Hh : starts_with_hash (key ++ String "=" (rstrip v)) = false)
    by (destruct key; [reflexivity | exact Khash]).
  assert (Hc : str_contains "=" (key ++ String "=" (rstrip v)) = true)
    by (apply str_contains_app_r; reflexivity).
  rewrite Htr, Hh, Hc. simpl.
  rewrite split_eq_mid by exact Keq.
  rewrite Kstrip, py_strip_rstrip. reflexivity.
Qed.

Lemma env_update_lines_map (key newline : string) (ls : list string) :
  env_update_lines key newline ls =
  (map (fun l => if env_assigns key l then newline else l) ls,
   existsb (env_assigns key) ls).
Proof.
  induction ls as [|l ls IH]; simpl; [reflexivity|].
  rewrite IH. unfold env_assigns.
  destruct (env_split_line l) as [[k0 v0]|]; [|reflexivity].
  destruct (String.eqb (py_strip k0) key); reflexivity.
Qed.

Lemma map_no_assign (key newline : string) (ls : list string) :
  existsb (env_assigns key) ls = false ->
  map (fun l => if env_assigns key l then newline else l) ls = ls.
Proof.
  induction ls as [|l ls IH]; simpl; [reflexivity|].
  intro H. apply orb_false_iff in H as [H1 H2]. rewrite H1, IH by exact H2.
  reflexivity.
Qed.

Lemma fold_no_assign (key : string) (ls : list string) (d : list (string * pyval)) :
  existsb (env_assigns key) ls = false ->
  dict_get (fold_left env_parse_line ls d) key = dict_get d key.
Proof.
  revert d; induction ls as [|l ls IH]; intros d H; simpl; [reflexivity|].
  simpl in H. apply orb_false_iff in H as [H1 H2].
  rewrite IH by exact H2. apply parse_line_other, H1.
Qed.

Lemma fold_map_other (key newline : string) (nv : pyval)
  (Hnew : forall d, env_parse_line d newline = dict_set d key nv)
  (ls : list string) (d : list (string * pyval)) (k : string) :
  k <> key ->
  dict_get (fold_left env_parse_line
              (map (fun l => if env_assigns key l then newline else l) ls) d) k =
  dict_get (fold_left env_parse_line ls d) k.
Proof.
  intro Hk. revert d; induction ls as [|l ls IH]; intro d; cbn [map fold_left];
    [reflexivity|].
  destruct (env_assigns key l) eqn:A.
  - rewrite IH. destruct (parse_line_assigns key l A) as [v Hv].
    rewrite Hnew, Hv. apply fold_parse_congr.
    rewrite !dict_get_set. apply String.eqb_neq in Hk. rewrite Hk. reflexivity.
  - apply IH.
Qed.

Lemma fold_map_key (key newline : string) (nv : pyval)
  (Hnew : forall d, env_parse_line d newline = dict_set d key nv)
  (ls : list string) (d : list (string * pyval)) :
  existsb (env_assigns key) ls = true ->
  dict_get (fold_left env_parse_line
              (map (fun l => if env_assigns key l then newline else l) ls) d) key
  = Some nv.
Proof.
  revert d; induction ls as [|l ls IH]; intros d H; cbn [map fold_left existsb] in *;
    [discriminate|].
  destruct (existsb (env_assigns key) ls) eqn:R.
  - apply IH. reflexivity.
  - rewrite orb_false_r in H. rewrite H, map_no_assign by exact R.
    rewrite Hnew, fold_no_assign by exact R. rewrite dict_get_set, String.eqb_refl.
    reflexivity.
Qed.

End EnvFacts2.
Import EnvFacts2.

Module EnvFacts3.
#[local] Opaque nl cr.

Lemma ends_with_nl_cons (c : ascii) (s : string) :
  ends_with_nl (String c s) = if String.eqb s "" then Ascii.eqb c nl else ends_with_nl s.
Proof.
  unfold ends_with_nl. simpl. rewrite (rev_string_acc s (String c "")).
  destruct s as [|x s']; [reflexivity|].
  change (String.eqb (String x s') "") with false. cbv iota.
  destruct (rev_string (String x s') "") eqn:E; [|reflexivity].
  apply rev_string_empty in E. discriminate.
Qed.

Lemma ends_with_nl_snoc (s : string) : ends_with_nl (s ++ String nl "") = true.
Proof. unfold ends_with_nl. rewrite rev_string_app. reflexivity. Qed.

Lemma nl_only_last_snoc (s : string) :
  has_char nl s = false -> nl_only_last (s ++ String nl "") = true.
Proof.
  induction s as [|c s IH]; intro H; [reflexivity|].
  simpl in H. apply orb_false_iff in H as [H1 H2]. simpl.
  rewrite Ascii.eqb_sym, H1. apply IH, H2.
Qed.

Lemma readlines_app_line (l rest : string) :
  nl_only_last l = true -> ends_with_nl l = true ->
  readlines (l ++ rest) = l :: readlines rest.
Proof.
  induction l as [|c l IH]; intros H1 H2; [discriminate|].
  rewrite ends_with_nl_cons in H2. simpl in H1 |- *.
  destruct (Ascii.eqb c nl) eqn:E.
  - apply String.eqb_eq in H1. subst. apply Ascii.eqb_eq in E. subst. reflexivity.
  - destruct (String.eqb l "") eqn:El; [discriminate|].
    rewrite IH by assumption. reflexivity.
Qed.

Lemma readlines_last (l : string) :
  l <> "" -> nl_only_last l = true -> readlines l = [l].
Proof.
  induction l as [|c l IH]; intros H1 H2; [congruence|].
  simpl in H2 |- *. destruct (Ascii.eqb c nl) eqn:E.
  - apply String.eqb_eq in H2. subst. apply Ascii.eqb_eq in E. subst. reflexivity.
  - destruct l as [|x l']; [reflexivity|].
    rewrite IH by (congruence || assumption). reflexivity.
Qed.

Lemma nl_only_last_no_end (l : string) :
  nl_only_last l = true -> ends_with_nl l = false -> has_char nl l = false.
Proof.
  induction l as [|c l IH]; intros H1 H2; [reflexivity|].
  rewrite ends_with_nl_cons in H2. simpl in H1 |- *.
  rewrite Ascii.eqb_sym.
  destruct (Ascii.eqb c nl) eqn:E.
  - apply String.eqb_eq in H1. subst. discriminate.
  - destruct (String.eqb l "") eqn:El.
    + apply String.eqb_eq in El. subst. reflexivity.
    + apply IH; assumption.
Qed.

Lemma reload_fold (n : nat) (ls : list string) (d : list (string * pyval)) :
  List.length ls <= n -> lines_ok ls = true ->
  fold_left env_parse_line (readlines (concat_lines ls)) d =
  fold_left env_parse_line ls d.
Proof.
  revert ls d; induction n as [|n IH]; intros ls d Hlen Hok.
  - destruct ls; [reflexivity | simpl in Hlen; lia].
  - destruct ls as [|l rest]; [reflexivity|].
    simpl in Hok. apply andb_true_iff in Hok as [Hok Hrest].
    apply andb_true_iff in Hok as [Hl Hnext].
    unfold line_fine in Hl. apply andb_true_iff in Hl as [Hl _].
    apply andb_true_iff in Hl as [Hne Honly].
    apply negb_true_iff, String.eqb_neq in Hne.
    simpl concat_lines. simpl in Hlen.
    destruct (ends_with_nl l) eqn:Eend.
    + rewrite readlines_app_line by assumption. simpl. apply IH; [lia | exact Hrest].
    + destruct rest as [|l2 rest2].
      * rewrite append_nil_s, readlines_last by assumption. reflexivity.
      * simpl in Hnext. apply String.eqb_eq in Hnext. subst l2.
        simpl in Hrest. simpl concat_lines.
        replace (l ++ String nl (concat_lines rest2))
          with ((l ++ String nl "") ++ concat_lines rest2)
          by (rewrite append_assoc_s; reflexivity).
        rewrite readlines_app_line.
        -- simpl. rewrite parse_line_snoc_nl. apply IH; [simpl in Hlen; lia|].
           apply andb_true_iff in Hrest as [_ Hrest]. exact Hrest.
        -- apply nl_only_last_snoc, nl_only_last_no_end; assumption.
        -- apply ends_with_nl_snoc.
Qed.

Lemma has_char_concat (c : ascii) (ls : list string) :
  has_char c (concat_lines ls) = existsb (has_char c) ls.
Proof.
  induction ls as [|l ls IH]; simpl; [reflexivity|]. rewrite has_char_app, IH. reflexivity.
Qed.

Lemma lines_ok_no_cr (ls : list string) :
  lines_ok ls = true -> existsb (has_char cr) ls = false.
Proof.
  induction ls as [|l ls IH]; simpl; [reflexivity|].
  intro H. apply andb_true_iff in H as [H Hr]. apply andb_true_iff in H as [Hl _].
  unfold line_fine in Hl. apply andb_true_iff in Hl as [_ Hc].
  apply negb_true_iff in Hc. rewrite Hc, IH by exact Hr. reflexivity.
Qed.

Lemma translate_roundtrip (sep s : string) :
  linesep_ok sep = true -> has_char cr s = false ->
  translate_newlines (translate_out sep s) = s.
Proof.
  intros Hsep. induction s as [|c s IH]; intro H; [reflexivity|].
  simpl in H. apply orb_false_iff in H as [H1 H2]. simpl.
  destruct (Ascii.eqb c nl) eqn:E.
  - apply Ascii.eqb_eq in E. subst c.
    unfold linesep_ok in Hsep. apply orb_true_iff in Hsep as [S|S];
      apply String.eqb_eq in S; subst sep; simpl; rewrite IH by exact H2; reflexivity.
  - simpl. rewrite Ascii.eqb_sym, H1, IH by exact H2. reflexivity.
Qed.

Lemma reload_parse (sep : string) (m : envm) :
  lines_ok (env_lines m) = true -> linesep_ok sep = true ->
  env_vars (env_load (Some (env_save sep m))) = env_parse (env_lines m).
Proof.
  intros Hok Hsep. unfold env_save, env_load, env_parse. simpl.
  rewrite translate_roundtrip by
    (assumption || (rewrite has_char_concat; apply lines_ok_no_cr, Hok)).
  apply (reload_fold (List.length (env_lines m))); [lia | exact Hok].
Qed.

Lemma translate_no_cr (n : nat) (s : string) :
  String.length s <= n -> has_char cr (translate_newlines s) = false.
Proof.
  revert s; induction n as [|n IH]; intros s Hl.
  - destruct s; [reflexivity | simpl in Hl; lia].
  - destruct s as [|c s]; [reflexivity|]. simpl in Hl |- *.
    destruct (Ascii.eqb c cr) eqn:E; simpl.
    + destruct s as [|d s'']; [reflexivity|].
      simpl in Hl. destruct (Ascii.eqb d nl); apply IH; simpl; lia.
    + rewrite Ascii.eqb_sym, E. apply IH. lia.
Qed.

Lemma readlines_lines_ok (t : string) :
  has_char cr t = false -> lines_ok (readlines t) = true.
Proof.
  induction t as [|c t IH]; intro H; [reflexivity|].
  simpl in H. apply orb_false_iff in H as [H1 H2]. specialize (IH H2).
  simpl. destruct (Ascii.eqb c nl) eqn:E.
  - apply Ascii.eqb_eq in E. subst c. simpl.
    destruct (readlines t); [reflexivity|]. exact IH.
  - destruct (readlines t) as [|l ls] eqn:R.
    + simpl. unfold line_fine. simpl. rewrite E, H1. reflexivity.
    + simpl in IH |- *. apply andb_true_iff in IH as [IH Hr].
      apply andb_true_iff in IH as [Hl Hn].
      unfold line_fine in Hl |- *.
      apply andb_true_iff in Hl as [Hl Hc]. apply andb_true_iff in Hl as [Hne Ho].
      apply negb_true_iff, String.eqb_neq in Hne.
      apply negb_true_iff in Hc.
      simpl. rewrite E, Ho, H1, Hc, Hr. simpl.
      destruct ls as [|l2 ls']; [reflexivity|].
      rewrite ends_with_nl_cons.
      destruct (String.eqb l "") eqn:El; [apply String.eqb_eq in El; congruence|].
      rewrite Hn. reflexivity.
Qed.

End EnvFacts3.
Import EnvFacts3.

Module EnvFacts4.
#[local] Opaque nl cr.

Lemma newline_fine (key v : string) :
  key_ok key = true -> one_line v = true ->
  line_fine (key ++ "=" ++ v ++ String nl "") = true /\
  ends_with_nl (key ++ "=" ++ v ++ String nl "") = true.
Proof.
  intros K V.
  unfold key_ok, one_line in K. unfold one_line in V.
  apply andb_true_iff in K as [K _]. apply andb_true_iff in K as [K _].
  apply andb_true_iff in K as [K _]. apply andb_true_iff in K as [Kn Kc].
  apply andb_true_iff in V as [Vn Vc]. apply negb_true_iff in Kn, Kc, Vn, Vc.
  replace (key ++ "=" ++ v ++ String nl "") with ((key ++ "=" ++ v) ++ String nl "")
    by (rewrite !append_assoc_s; reflexivity).
  split; [|apply ends_with_nl_snoc].
  unfold line_fine. rewrite nl_only_last_snoc.
  - rewrite !has_char_app, Kc, Vc. destruct key; reflexivity.
  - rewrite !has_char_app, Kn, Vn. reflexivity.
Qed.

Lemma env_assigns_sep (key : string) : env_assigns key (String nl "") = false.
Proof. reflexivity. Qed.

Lemma lines_ok_map (key nw : string) (ls : list string) :
  lines_ok ls = true -> line_fine nw = true -> ends_with_nl nw = true ->
  lines_ok (map (fun l => if env_assigns key l then nw else l) ls) = true.
Proof.
  intros Hok Hf He. induction ls as [|l rest IH]; [reflexivity|].
  cbn [lines_ok] in Hok. apply andb_true_iff in Hok as [Hok Hrest].
  apply andb_true_iff in Hok as [Hl Hnext].
  cbn [map lines_ok]. rewrite IH by exact Hrest. rewrite andb_true_r.
  apply andb_true_iff; split; [destruct (env_assigns key l); assumption|].
  destruct rest as [|l2 rest']; [reflexivity|]. cbn [map].
  destruct (env_assigns key l) eqn:A; [rewrite He; reflexivity|].
  apply orb_true_iff in Hnext as [H|H]; [rewrite H; reflexivity|].
  apply String.eqb_eq in H. subst l2. rewrite env_assigns_sep, String.eqb_refl, orb_true_r.
  reflexivity.
Qed.

Lemma lines_ok_snoc (ls : list string) (x : string) :
  lines_ok ls = true -> line_fine x = true ->
  (forall pre l, ls = (pre ++ [l])%list -> ends_with_nl l || String.eqb x (String nl "") = true) ->
  lines_ok (ls ++ [x])%list = true.
Proof.
  intros Hok Hx H. induction ls as [|l rest IH].
  - simpl. rewrite Hx. reflexivity.
  - cbn [lines_ok] in Hok. apply andb_true_iff in Hok as [Hok Hrest].
    apply andb_true_iff in Hok as [Hl Hnext].
    rewrite <- app_comm_cons. cbn [lines_ok]. rewrite Hl.
    rewrite IH; [| exact Hrest | intros pre l' E; apply (H (l :: pre)); rewrite E; reflexivity].
    destruct rest as [|l2 rest']; simpl.
    + rewrite (H [] l eq_refl). reflexivity.
    + rewrite Hnext. reflexivity.
Qed.

Lemma env_set_lines_ok (m : envm) (key : string) (value : pyval) :
  key_ok key = true -> one_line (py_str value) = true -> lines_ok (env_lines m) = true ->
  lines_ok (env_lines (env_set m key value)) = true.
Proof.
  intros K V Hok.
  destruct (newline_fine key (py_str value) K V) as [Hf He].
  unfold env_set. rewrite env_update_lines_map.
  destruct (existsb (env_assigns key) (env_lines m)) eqn:X; simpl.
  - apply lines_ok_map; assumption.
  - rewrite map_no_assign by exact X.
    destruct (rev (env_lines m)) as [|last pre] eqn:R.
    + apply lines_ok_snoc; [exact Hok | exact Hf|].
      intros pre l E. rewrite E, rev_app_distr in R. discriminate.
    + destruct (ends_with_nl last) eqn:Elast; simpl.
      * apply lines_ok_snoc; [exact Hok | exact Hf|].
        intros pre' l E. rewrite E, rev_app_distr in R. simpl in R.
        injection R as -> _. rewrite Elast. reflexivity.
      * replace (env_lines m ++
                 [String nl ""; (key ++ String "=" (py_str value ++ String nl ""))%string])%list
          with ((env_lines m ++ [String nl ""]) ++
                 [(key ++ String "=" (py_str value ++ String nl ""))%string])%list
          by (rewrite <- app_assoc; reflexivity).
        apply lines_ok_snoc.
        -- apply lines_ok_snoc; [exact Hok | reflexivity |].
           intros. rewrite String.eqb_refl, orb_true_r. reflexivity.
        -- exact Hf.
        -- intros pre' l E. apply app_inj_tail in E as [_ <-]. reflexivity.
Qed.

Lemma reachable_lines_ok (m : envm) : env_reachable m -> lines_ok (env_lines m) = true.
Proof.
  induction 1 as [[text|] | m key value _ IH K V].
  - apply readlines_lines_ok, (translate_no_cr (String.length text)). lia.
  - reflexivity.
  - apply env_set_lines_ok; assumption.
Qed.

Lemma concat_readlines (t : string) : concat_lines (readlines t) = t.
Proof.
  induction t as [|c t IH]; [reflexivity|]. simpl.
  destruct (Ascii.eqb c nl) eqn:E.
  - apply Ascii.eqb_eq in E. subst c. simpl. rewrite IH. reflexivity.
  - destruct (readlines t) as [|l ls]; simpl in *; rewrite <- IH; reflexivity.
Qed.

(** The reloaded value of [key] right after [set]. *)
Lemma reload_set_key (sep : string) (m : envm) (key : string) (value : pyval) :
  lines_ok (env_lines m) = true -> key_ok key = true -> one_line (py_str value) = true ->
  linesep_ok sep = true ->
  env_reloaded sep (env_set m key value) key = Some (PStr (py_strip (py_str value))).
Proof.
  intros Hok K V S. unfold env_reloaded.
  rewrite reload_parse by (assumption || (apply env_set_lines_ok; assumption)).
  unfold env_parse, env_set. rewrite env_update_lines_map.
  destruct (existsb (env_assigns key) (env_lines m)) eqn:X; simpl.
  - apply fold_map_key; [|exact X]. intro d. apply parse_newline, K.
  - rewrite map_no_assign by exact X.
    set (sep' := match rev (env_lines m) with
                 | [] => []
                 | last :: _ => if ends_with_nl last then [] else [String nl ""]
                 end).
    rewrite !fold_left_app. simpl. rewrite parse_newline by exact K.
    rewrite dict_get_set, String.eqb_refl. reflexivity.
Qed.

Lemma reload_set_other (sep : string) (m : envm) (key k : string) (value : pyval) :
  lines_ok (env_lines m) = true -> key_ok key = true -> one_line (py_str value) = true ->
  linesep_ok sep = true -> k <> key ->
  env_reloaded sep (env_set m key value) k = env_reloaded sep m k.
Proof.
  intros Hok K V S Hk. unfold env_reloaded.
  rewrite !reload_parse by (assumption || (apply env_set_lines_ok; assumption)).
  unfold env_parse, env_set. rewrite env_update_lines_map.
  destruct (existsb (env_assigns key) (env_lines m)) eqn:X; simpl.
  - apply (fold_map_other key _ (PStr (py_strip (py_str value)))); [|exact Hk].
    intro d. apply parse_newline, K.
  - rewrite map_no_assign by exact X.
    rewrite !fold_left_app.
    destruct (rev (env_lines m)) as [|last pre];
      [|destruct (ends_with_nl last)]; simpl;
      rewrite parse_newline by exact K; rewrite dict_get_set;
      apply String.eqb_neq in Hk; rewrite Hk; reflexivity.
Qed.

End EnvFacts4.
Import EnvFacts4.

Module EnvFacts5.
#[local] Opaque nl cr.

Lemma env_get_set (m : envm) (key : string) (value default : pyval) :
  env_get (env_set m key value) key default = value.
Proof.
  unfold env_get, env_set. rewrite env_update_lines_map.
  destruct (existsb (env_assigns key) (env_lines m)); simpl;
    rewrite dict_get_set, String.eqb_refl; reflexivity.
Qed.

Lemma reach_reload_key (sep : string) (m : envm) (key : string) (value : pyval) :
  env_reachable m -> key_ok key = true -> one_line (py_str value) = true ->
  linesep_ok sep = true ->
  env_reloaded sep (env_set m key value) key = Some (PStr (py_strip (py_str value))).
Proof.
  intros R K V S.
  apply reload_set_key; [apply reachable_lines_ok, R | exact K | exact V | exact S].
Qed.

Lemma reach_reload_other (sep : string) (m : envm) (key k : string) (value : pyval) :
  env_reachable m -> key_ok key = true -> one_line (py_str value) = true ->
  linesep_ok sep = true -> k <> key ->
  env_reloaded sep (env_set m key value) k = env_reloaded sep m k.
Proof.
  intros R K V S Hk. apply reload_set_other; [apply reachable_lines_ok, R | assumption ..].
Qed.

Lemma has_char_rev_string (c : ascii) (s acc : string) :
  has_char c (rev_string s acc) = has_char c s || has_char c acc.
Proof.
  revert acc; induction s as [|x s IH]; intro acc; simpl; [reflexivity|].
  rewrite IH. simpl. destruct (Ascii.eqb c x), (has_char c s), (has_char c acc); reflexivity.
Qed.

Lemma has_char_lstrip (c : ascii) (s : string) :
  has_char c s = false -> has_char c (lstrip s) = false.
Proof.
  induction s as [|x s IH]; intro H; simpl; [reflexivity|].
  simpl in H. apply orb_false_iff in H as [H1 H2].
  destruct (is_py_space x); [apply IH, H2 | simpl; rewrite H1, H2; reflexivity].
Qed.

Lemma has_char_py_strip (c : ascii) (s : string) :
  has_char c s = false -> has_char c (py_strip s) = false.
Proof.
  intro H. unfold py_strip. rewrite has_char_rev_string, orb_false_r.
  apply has_char_lstrip. rewrite has_char_rev_string, orb_false_r.
  apply has_char_lstrip, H.
Qed.

Lemma one_line_py_strip (s : string) : one_line s = true -> one_line (py_strip s) = true.
Proof.
  unfold one_line. intro H. apply andb_true_iff in H as [H1 H2].
  apply negb_true_iff in H1, H2.
  rewrite !has_char_py_strip by assumption. reflexivity.
Qed.


Lemma split_line_assign (key r : string) :
  key_ok key = true ->
  env_split_line (key ++ String "=" r) = Some (key, rstrip r).
Proof.
  intro K. unfold env_split_line.
  rewrite py_strip_split, key_ok_lstrip by exact K.
  rewrite rstrip_mid by reflexivity.
  pose proof K as K'. unfold key_ok in K'.
  apply andb_true_iff in K' as [K' Kstrip]. apply andb_true_iff in K' as [K' Khash].
  apply andb_true_iff in K' as [_ Keq].
  apply negb_true_iff in Khash, Keq.
  assert (Htr : truthy (PStr (key ++ String "=" (rstrip r))) = true)
    by (destruct key; reflexivity).
  assert (Hh : starts_with_hash (key ++ String "=" (rstrip r)) = false)
    by (destruct key; [reflexivity | exact Khash]).
  assert (Hc : str_contains "=" (key ++ String "=" (rstrip r)) = true)
    by (apply str_contains_app_r; reflexivity).
  rewrite Htr, Hh, Hc. simpl. rewrite split_eq_mid by exact Keq. reflexivity.
Qed.

Lemma parse_fold_last (key : string) (ls : list string) (d : list (string * pyval)) :
  dict_get (fold_left env_parse_line ls d) key =
  match find (env_assigns key) (rev ls) with
  | Some l => match env_split_line l with
              | Some (_, v) => Some (PStr (py_strip v))
              | None => None
              end
  | None => dict_get d key
  end.
Proof.
  induction ls as [|x ls IH] using rev_ind; [reflexivity|].
  rewrite fold_left_app, rev_app_distr. cbn [rev app find fold_left].
  unfold env_parse_line at 1, env_assigns at 1.
  destruct (env_split_line x) as [[k v]|] eqn:E.
  - rewrite dict_get_set, String.eqb_sym. destruct (String.eqb (py_strip k) key).
    + rewrite E. reflexivity.
    + exact IH.
  - exact IH.
Qed.

Lemma assigns_newline (key r : string) :
  key_ok key = true -> env_assigns key (key ++ String "=" r) = true.
Proof.
  intro K. unfold env_assigns. rewrite split_line_assign by exact K.
  unfold key_ok in K. apply andb_true_iff in K as [_ K]. exact K.
Qed.

End EnvFacts5.
Import EnvFacts5.

(** X1: on a manager obtained by [load] followed only by [set]s of
    well-formed keys to values whose [str] is one line ([env_reachable]),
    [set] of a well-formed key ([key_ok]: one line, no [=], no leading [#], no
    surrounding blanks) to such a value makes [get] return the value itself,
    while saving and loading the file again gives the stripped [str] of the
    value. *)
Theorem env_set_get_and_reload (sep : string) (m : envm) (key : string)
  (value default : pyval) :
  env_reachable m -> key_ok key = true -> one_line (py_str value) = true ->
  linesep_ok sep = true ->
  env_get (env_set m key value) key default = value /\
  env_reloaded sep (env_set m key value) key = Some (PStr (py_strip (py_str value))).
Proof.
  intros R K V S. split; [apply env_get_set | apply reach_reload_key; assumption].
Qed.

Lemma env_set_get_and_reload_witness :
  env_reachable (env_load (Some env_example)) /\
  env_get (env_set (env_load (Some env_example)) "PORT" (PStr " 4000 ")) "PORT" (PStr "")
    = PStr " 4000 " /\
  env_reloaded (String cr (String nl "")) (env_set (env_load (Some env_example)) "PORT" (PStr " 4000 ")) "PORT"
    = Some (PStr "4000").
Proof.
  assert (R : env_reachable (env_load (Some env_example))) by apply reach_load.
  assert (K : key_ok "PORT" = true) by reflexivity.
  assert (V : one_line (py_str (PStr " 4000 ")) = true) by reflexivity.
  assert (S : linesep_ok (String cr (String nl "")) = true) by reflexivity.
  exact (conj R (env_set_get_and_reload _ _ _ _ (PStr "") R K V S)).
Defined.

(** X2: on a manager obtained by [load] followed only by [set]s of
    well-formed keys to one-line values ([env_reachable]), a further [set] of
    a well-formed key to a one-line value leaves every other key's value, as
    read back after saving and loading, unchanged. *)
Theorem env_set_keeps_other_keys (sep : string) (m : envm) (key k : string)
  (value : pyval) :
  env_reachable m -> key_ok key = true -> one_line (py_str value) = true ->
  linesep_ok sep = true -> k <> key ->
  env_reloaded sep (env_set m key value) k = env_reloaded sep m k.
Proof.
  intros R K V S Hk. apply reach_reload_other; assumption.
Qed.

Lemma env_set_keeps_other_keys_witness :
  env_reloaded (String nl "") (env_set (env_load (Some env_example)) "HOST" (PInt 7)) "PEERS"
  = env_reloaded (String nl "") (env_load (Some env_example)) "PEERS".
Proof.
  assert (R : env_reachable (env_load (Some env_example))) by apply reach_load.
  assert (K : key_ok "HOST" = true) by reflexivity.
  assert (V : one_line (py_str (PInt 7)) = true) by reflexivity.
  assert (S : linesep_ok (String nl "") = true) by reflexivity.
  assert (N : "PEERS" <> "HOST") by discriminate.
  exact (env_set_keeps_other_keys _ _ _ _ _ R K V S N).
Defined.

(** X3: loading a file, saving it with either line separator and loading it again
    gives the same lines and the same values. *)
Theorem env_load_save_load (sep : string) (file : option string) :
  linesep_ok sep = true -> env_load (Some (env_save sep (env_load file))) = env_load file.
Proof.
  intro S. destruct file as [text|]; [|reflexivity].
  unfold env_save. cbn [env_load env_lines].
  rewrite concat_readlines, translate_roundtrip;
    [reflexivity | exact S | apply (translate_no_cr (String.length text)); lia].
Qed.

Lemma env_load_save_load_witness :
  linesep_ok (String cr (String nl "")) = true /\
  env_load (Some (env_save (String cr (String nl "")) (env_load (Some env_example))))
  = env_load (Some env_example).
Proof.
  assert (S : linesep_ok (String cr (String nl "")) = true) by reflexivity.
  exact (conj S (env_load_save_load _ (Some env_example) S)).
Defined.

(** X4: on a manager obtained by [load] followed only by [set]s of
    well-formed keys to one-line values, and with one-line port and peers
    texts, the file reloaded after [save_config] holds the stripped port, the
    stripped peers (or the default peer list when blank) and the host chosen
    by the selection; no other key changes. *)
Theorem save_config_reload (sep : string) (m : envm) (port_text peers_text selection : string) :
  env_reachable m -> one_line port_text = true -> one_line peers_text = true ->
  linesep_ok sep = true ->
  let m' := save_config m port_text peers_text selection in
  env_reloaded sep m' "PORT" = Some (PStr (py_strip port_text)) /\
  env_reloaded sep m' "PEERS" =
    Some (PStr (if String.eqb (py_strip peers_text) "" then default_peers
                else py_strip peers_text)) /\
  env_reloaded sep m' "HOST" =
    Some (PStr (if str_contains "Local" selection then "127.0.0.1" else "0.0.0.0")) /\
  (forall k, k <> "PORT" -> k <> "PEERS" -> k <> "HOST" ->
   env_reloaded sep m' k = env_reloaded sep m k).
Proof.
  intros R Vp Vq S m'.
  set (peers := if String.eqb (py_strip peers_text) "" then default_peers
                else py_strip peers_text).
  set (host := if str_contains "Local" selection then "127.0.0.1" else "0.0.0.0").
  set (m1 := env_set m "PORT" (PStr port_text)).
  set (m2 := env_set m1 "PEERS" (PStr peers)).
  assert (Em' : m' = env_set m2 "HOST" (PStr host)).
  { unfold m', m2, m1, peers, host, save_config. simpl.
    destruct (String.eqb (py_strip peers_text) ""), (str_contains "Local" selection);
      reflexivity. }
  assert (Vpeers : one_line (py_str (PStr peers)) = true).
  { simpl. unfold peers. destruct (String.eqb (py_strip peers_text) "");
      [reflexivity | apply one_line_py_strip, Vq]. }
  assert (Speers : py_strip peers = peers).
  { unfold peers. destruct (String.eqb (py_strip peers_text) "");
      [reflexivity | apply py_strip_idem]. }
  assert (Vhost : one_line (py_str (PStr host)) = true)
    by (unfold host; destruct (str_contains "Local" selection); reflexivity).
  assert (Shost : py_strip host = host)
    by (unfold host; destruct (str_contains "Local" selection); reflexivity).
  assert (R1 : env_reachable m1) by (apply reach_set; [exact R | reflexivity | exact Vp]).
  assert (R2 : env_reachable m2) by (apply reach_set; [exact R1 | reflexivity | exact Vpeers]).
  rewrite Em'. unfold m2, m1 in *.
  repeat split.
  - rewrite reach_reload_other by (assumption || reflexivity || discriminate).
    rewrite reach_reload_other by (assumption || reflexivity || discriminate).
    apply reach_reload_key; assumption || reflexivity.
  - rewrite reach_reload_other by (assumption || reflexivity || discriminate).
    rewrite (reach_reload_key sep (env_set m "PORT" (PStr port_text)) "PEERS" (PStr peers) R1
                      eq_refl Vpeers S).
    simpl. rewrite Speers. reflexivity.
  - rewrite (reach_reload_key sep (env_set (env_set m "PORT" (PStr port_text)) "PEERS" (PStr peers)) "HOST" (PStr host) R2
                      eq_refl Vhost S).
    simpl. rewrite Shost. reflexivity.
  - intros k H1 H2 H3.
    rewrite reach_reload_other by (assumption || reflexivity).
    rewrite reach_reload_other by (assumption || reflexivity).
    apply reach_reload_other; assumption || reflexivity.
Qed.

Lemma save_config_reload_witness :
  let m' := save_config (env_load (Some env_example)) " 4000" "  " "Local Only (127.0.0.1)" in
  env_reloaded (String nl "") m' "PORT" = Some (PStr "4000") /\
  env_reloaded (String nl "") m' "PEERS" = Some (PStr default_peers) /\
  env_reloaded (String nl "") m' "HOST" = Some (PStr "127.0.0.1").
Proof.
  assert (R : env_reachable (env_load (Some env_example))) by apply reach_load.
  assert (Vp : one_line " 4000" = true) by reflexivity.
  assert (Vq : one_line "  " = true) by reflexivity.
  assert (S : linesep_ok (String nl "") = true) by reflexivity.
  destruct (save_config_reload _ _ " 4000" "  " "Local Only (127.0.0.1)" R Vp Vq S)
    as (H1 & H2 & H3 & _).
  exact (conj H1 (conj H2 H3)).
Defined.

(** X5: on a manager obtained by [load] followed only by [set]s of
    well-formed keys to one-line values, and for a private key whose [str] is
    one line, [bind_wallet] writes nothing without a private key or without
    the user's confirmation; confirmed, it stores the key under
    NODE_WALLET_PRIVATE_KEY and changes no other key. *)
Theorem bind_wallet_reload (sep : string) (w : wallet) (m : envm) :
  env_reachable m -> one_line (py_str (private_key w)) = true -> linesep_ok sep = true ->
  (truthy (private_key w) = false -> forall confirm, bind_wallet w m confirm = None) /\
  bind_wallet w m false = None /\
  (truthy (private_key w) = true ->
   exists m', bind_wallet w m true = Some m' /\
   env_reloaded sep m' "NODE_WALLET_PRIVATE_KEY"
     = Some (PStr (py_strip (py_str (private_key w)))) /\
   forall k, k <> "NODE_WALLET_PRIVATE_KEY" -> env_reloaded sep m' k = env_reloaded sep m k).
Proof.
  intros R V S. unfold bind_wallet. split; [|split].
  - intros T confirm. rewrite T. reflexivity.
  - destruct (truthy (private_key w)); reflexivity.
  - intro T. rewrite T. simpl. eexists. split; [reflexivity|]. split.
    + apply (reach_reload_key sep m "NODE_WALLET_PRIVATE_KEY" (private_key w) R eq_refl V S).
    + intros k Hk. apply reach_reload_other; assumption || reflexivity.
Qed.

Lemma bind_wallet_reload_witness :
  exists m', bind_wallet wallet_AA11 (env_load (Some env_example)) true = Some m' /\
  env_reloaded (String nl "") m' "NODE_WALLET_PRIVATE_KEY" = Some (PStr "0011").
Proof.
  assert (R : env_reachable (env_load (Some env_example))) by apply reach_load.
  assert (V : one_line (py_str (private_key wallet_AA11)) = true) by reflexivity.
  assert (S : linesep_ok (String nl "") = true) by reflexivity.
  assert (T : truthy (private_key wallet_AA11) = true) by reflexivity.
  destruct (proj2 (proj2 (bind_wallet_reload _ _ _ R V S)) T) as (m' & E & H & _).
  exists m'. exact (conj E H).
Defined.

(** X6: the value [EnvManager.load] gives a key comes from the last line of
    the file, as [load] splits it into lines, that assigns the key: the text
    after that line's first [=], stripped.  Earlier assignments, comments and
    other lines do not matter; with no assigning line the key is absent. *)
Theorem env_load_last_assignment (text key : string) :
  dict_get (env_vars (env_load (Some text))) key =
  match find (env_assigns key) (rev (env_lines (env_load (Some text)))) with
  | Some l => match env_split_line l with
              | Some (_, v) => Some (PStr (py_strip v))
              | None => None
              end
  | None => None
  end.
Proof.
  cbn [env_load env_vars env_lines]. unfold env_parse. apply parse_fold_last.
Qed.

(** X7: after [EnvManager.set] of a well-formed key ([key_ok]), every
    line assigning the key is the new line, the new line is present, and all
    other lines keep their order, followed at most by one blank separator
    line. *)
Theorem env_set_replaces_assignments (m : envm) (key : string) (value : pyval) :
  key_ok key = true ->
  let newline := key ++ "=" ++ py_str value ++ String nl "" in
  let lines' := env_lines (env_set m key value) in
  In newline lines' /\
  (forall l, In l lines' -> env_assigns key l = true -> l = newline) /\
  exists sep, (sep = [] \/ sep = [String nl ""]) /\
    filter (fun l => negb (env_assigns key l)) lines'
    = (filter (fun l => negb (env_assigns key l)) (env_lines m) ++ sep)%list.
Proof.
  intros K newline lines'.
  assert (An : env_assigns key newline = true) by (apply assigns_newline, K).
  assert (Hf : forall ls, filter (fun l => negb (env_assigns key l))
                 (map (fun l => if env_assigns key l then newline else l) ls)
               = filter (fun l => negb (env_assigns key l)) ls).
  { induction ls as [|l ls IH]; [reflexivity|]. simpl.
    destruct (env_assigns key l) eqn:E; simpl; [rewrite An; exact IH|].
    rewrite E. simpl. f_equal. exact IH. }
  assert (Hm : forall ls l, In l (map (fun l => if env_assigns key l then newline else l) ls) ->
               env_assigns key l = true -> l = newline).
  { intros ls l Hin Ha. apply in_map_iff in Hin as [l0 [Eq _]].
    destruct (env_assigns key l0) eqn:E0; [congruence|subst; congruence]. }
  unfold lines', env_set. fold newline.
  rewrite env_update_lines_map.
  destruct (existsb (env_assigns key) (env_lines m)) eqn:Ex; cbn [env_lines].
  - split; [|split].
    + apply existsb_exists in Ex as [l0 [Hin Ha]].
      apply in_map_iff. exists l0. rewrite Ha. auto.
    + apply Hm.
    + exists []. split; [left; reflexivity|]. rewrite app_nil_r. apply Hf.
  - set (sep := match rev (map (fun l => if env_assigns key l then newline else l) (env_lines m)) with
                | last :: _ => if ends_with_nl last then [] else [String nl ""]
                | [] => [] end).
    assert (Hs : sep = [] \/ sep = [String nl ""]).
    { unfold sep. destruct (rev _); [auto|]. destruct (ends_with_nl _); auto. }
    split; [|split].
    + apply in_or_app. right. apply in_or_app. right. left. reflexivity.
    + intros l Hin Ha. apply in_app_or in Hin as [Hin|Hin]; [exact (Hm _ _ Hin Ha)|].
      apply in_app_or in Hin as [Hin|[Hin|[]]]; [|congruence].
      destruct Hs as [Hs|Hs]; rewrite Hs in Hin; [destruct Hin|].
      destruct Hin as [Hin|[]]. subst l. discriminate.
    + exists sep. split; [exact Hs|].
      rewrite !filter_app, Hf. f_equal. simpl. rewrite An. simpl. rewrite app_nil_r.
      destruct Hs as [Hs|Hs]; rewrite Hs; reflexivity.
Qed.

Lemma env_set_replaces_assignments_witness :
  key_ok "PORT" = true /\
  In ("PORT" ++ "=" ++ py_str (PInt 5) ++ String nl "")
     (env_lines (env_set (env_load (Some env_example)) "PORT" (PInt 5))).
Proof.
  split; [reflexivity|].
  exact (proj1 (env_set_replaces_assignments (env_load (Some env_example)) "PORT" (PInt 5) eq_refl)).
Defined.

Module UIFacts.

Lemma py_in_dict (k : string) (d : list (string * pyval)) :
  py_in k (PDict d) = Some (match dict_get d k with Some _ => true | None => false end).
Proof.
  simpl. f_equal. induction d as [|[k0 v0] d IH]; simpl; [reflexivity|].
  rewrite String.eqb_sym. destruct (String.eqb k k0); [reflexivity | exact IH].
Qed.

Lemma subscript_dict (k : string) (d : list (string * pyval)) (v : pyval) :
  dict_get d k = Some v -> subscript (PDict d) k = Ret v.
Proof. intro H. simpl. rewrite H. reflexivity. Qed.

Lemma get_balance_ret (o : http_outcome) : exists v, Explorer.get_balance o = Ret v.
Proof.
  destruct o as [r|m]; simpl; [destruct (Z.eqb (status_code r) 200)|]; eexists; reflexivity.
Qed.

Lemma feed_keys_skipped (d : list (string * pyval)) :
  flat_map (fun p => match render_post p with
                     | Some s => [FeedInsert s] | None => [] end)
           (map (fun kv => PStr (fst kv)) d) = [].
Proof. induction d as [|kv d IH]; [reflexivity|]. exact IH. Qed.

Lemma balance_update_labels (on : bool) (bi : pyval) (e : ui_event) :
  In e (fst (balance_update on bi)) -> exists t, e = BalanceLabel t.
Proof.
  unfold balance_update.
  destruct (on && truthy bi); [|simpl; intros [<-|[]]; eauto].
  destruct (py_in "balance" bi) as [[|]|]; [| |simpl; tauto].
  - destruct (subscript bi "balance"); simpl; [intros [<-|[]]; eauto | tauto].
  - destruct (py_in "error" bi) as [[|]|]; [| simpl; tauto | simpl; tauto].
    destruct (subscript bi "error"); simpl; [intros [<-|[]]; eauto | tauto].
Qed.

Lemma update_ui_no_request (a stats balance_info : pyval) :
  ~ In (ReqBalance a) (fst (update_ui_with_data stats balance_info)).
Proof.
  assert (B : forall on, ~ In (ReqBalance a) (fst (balance_update on balance_info))).
  { intros on H. destruct (balance_update_labels on balance_info _ H); discriminate. }
  unfold update_ui_with_data.
  destruct (py_in "error" stats) as [[|]|]; [| |simpl; intuition discriminate].
  - destruct (subscript stats "error"); [|simpl; intuition discriminate].
    destruct (_ || _).
    + specialize (B false). destruct (balance_update false balance_info).
      simpl in *. intuition discriminate.
    + specialize (B true). destruct (balance_update true balance_info).
      simpl in *. intuition discriminate.
  - specialize (B true). destruct (balance_update true balance_info).
    simpl in *. intuition discriminate.
Qed.

End UIFacts.

Import UIFacts.

(** X8: a refused connection on [get_stats] shows the offline notice and the
    label "Balance: Node Offline", whatever the balance request returns. *)
Theorem stats_cycle_offline (public_key : pyval) (msg : string) (balance_o : http_outcome) :
  str_contains "WinError 10061" msg || str_contains "Connection refused" msg = true ->
  stats_cycle public_key (HttpExc msg) balance_o =
  ((ReqStats :: (if truthy public_key then [ReqBalance public_key] else []))
   ++ [StatsCleared; StatsInsert OfflineNotice; BalanceLabel "Balance: Node Offline"],
   Ret tt)%list.
Proof.
  intro H. unfold stats_cycle. cbn [Explorer.get_stats].
  assert (U : forall b, update_ui_with_data (err msg) b =
            ([StatsCleared; StatsInsert OfflineNotice; BalanceLabel "Balance: Node Offline"], Ret tt)).
  { intro b. unfold update_ui_with_data, err. rewrite py_in_dict. cbn [dict_get String.eqb].
    cbn [subscript dict_get]. simpl (String.eqb "error" "error"). cbv iota.
    cbn [py_str]. rewrite H. reflexivity. }
  destruct (truthy public_key).
  - destruct (get_balance_ret balance_o) as [v E]. rewrite E, U. reflexivity.
  - rewrite U. reflexivity.
Qed.

Lemma stats_cycle_offline_witness :
  stats_cycle (PStr "AA11") (HttpExc "[WinError 10061] No connection could be made")
    (HttpOk (mkresponse 200 (JsonOk (PDict [("balance", PInt 5)])))) =
  ([ReqStats; ReqBalance (PStr "AA11"); StatsCleared; StatsInsert OfflineNotice;
    BalanceLabel "Balance: Node Offline"], Ret tt).
Proof.
  assert (H : str_contains "WinError 10061" "[WinError 10061] No connection could be made"
              || str_contains "Connection refused" "[WinError 10061] No connection could be made"
              = true) by reflexivity.
  exact (stats_cycle_offline (PStr "AA11") _ _ H).
Defined.

(** X9: without a wallet the balance is never requested, whatever the
    requests return; when the stats request gives a JSON object (which it
    does for every failed request) the label reads "Balance: Node Offline",
    also when the node answered. *)
Theorem stats_cycle_no_wallet (public_key : pyval) (stats_o balance_o : http_outcome) :
  truthy public_key = false ->
  (forall a, ~ In (ReqBalance a) (fst (stats_cycle public_key stats_o balance_o))) /\
  (forall d, Explorer.get_stats stats_o = Ret (PDict d) ->
   exists t, stats_cycle public_key stats_o balance_o =
             ([ReqStats; StatsCleared; StatsInsert t; BalanceLabel "Balance: Node Offline"],
              Ret tt)).
Proof.
  intro T. split.
  - intro a. unfold stats_cycle. rewrite T.
    destruct (Explorer.get_stats stats_o) as [stats|e]; [|simpl; intuition discriminate].
    pose proof (update_ui_no_request a stats PNone) as N.
    destruct (update_ui_with_data stats PNone) as [evs r]. simpl in *.
    intros [H|H]; [discriminate | exact (N H)].
  - intros d S. unfold stats_cycle. rewrite S, T.
    unfold update_ui_with_data. rewrite py_in_dict.
    destruct (dict_get d "error") as [e|] eqn:E.
    + rewrite (subscript_dict _ _ _ E).
      destruct (str_contains "WinError 10061" (py_str e)
                || str_contains "Connection refused" (py_str e)); eexists; reflexivity.
    + eexists; reflexivity.
Qed.

Lemma stats_cycle_no_wallet_witness :
  truthy PNone = false /\
  exists t, stats_cycle PNone
              (HttpOk (mkresponse 200 (JsonOk (PDict [("height", PInt 12)]))))
              (HttpExc "unused") =
            ([ReqStats; StatsCleared; StatsInsert t; BalanceLabel "Balance: Node Offline"],
             Ret tt).
Proof.
  assert (T : truthy PNone = false) by reflexivity.
  assert (S : Explorer.get_stats (HttpOk (mkresponse 200 (JsonOk (PDict [("height", PInt 12)]))))
              = Ret (PDict [("height", PInt 12)])) by reflexivity.
  exact (conj T (proj2 (stats_cycle_no_wallet PNone _ (HttpExc "unused") T) _ S)).
Defined.

(** X10: with a wallet, stats that are a JSON object without "error", and a
    balance answer that is a JSON object, the balance label is "Node Offline"
    for an empty object, "b TRC" for a [balance] key, "Error (e)" for an
    [error] key, and is left unchanged otherwise. *)
Theorem stats_cycle_balance_label (public_key : pyval) (stats_o balance_o : http_outcome)
  (sd bd : list (string * pyval)) :
  truthy public_key = true -> Explorer.get_stats stats_o = Ret (PDict sd) ->
  dict_get sd "error" = None -> Explorer.get_balance balance_o = Ret (PDict bd) ->
  let pre := [ReqStats; ReqBalance public_key; StatsCleared;
              StatsInsert (StatsText (py_repr (PDict sd)))] in
  (bd = [] ->
   stats_cycle public_key stats_o balance_o =
   (pre ++ [BalanceLabel "Balance: Node Offline"], Ret tt)%list) /\
  (forall b, dict_get bd "balance" = Some b ->
   stats_cycle public_key stats_o balance_o =
   (pre ++ [BalanceLabel ("Balance: " ++ py_str b ++ " TRC")], Ret tt)%list) /\
  (forall e, dict_get bd "balance" = None -> dict_get bd "error" = Some e ->
   stats_cycle public_key stats_o balance_o =
   (pre ++ [BalanceLabel ("Balance: Error (" ++ py_str e ++ ")")], Ret tt)%list) /\
  (bd <> [] -> dict_get bd "balance" = None -> dict_get bd "error" = None ->
   stats_cycle public_key stats_o balance_o = (pre, Ret tt)).
Proof.
  intros T S Ne B pre.
  assert (C : stats_cycle public_key stats_o balance_o =
              let '(evs, r) := balance_update true (PDict bd) in
              ((pre ++ evs)%list, r)).
  { unfold stats_cycle. rewrite S, T, B. unfold update_ui_with_data.
    rewrite py_in_dict, Ne. destruct (balance_update true (PDict bd)); reflexivity. }
  rewrite C. unfold balance_update. cbn [andb].
  split; [|split; [|split]].
  - intros ->. reflexivity.
  - intros b Hb. destruct bd as [|kv bd']; [discriminate|].
    cbn [truthy]. rewrite py_in_dict, Hb, (subscript_dict _ _ _ Hb). reflexivity.
  - intros e Hb He. destruct bd as [|kv bd']; [discriminate|].
    cbn [truthy]. rewrite !py_in_dict, Hb, He, (subscript_dict _ _ _ He). reflexivity.
  - intros Hne Hb He. destruct bd as [|kv bd']; [congruence|].
    cbn [truthy]. rewrite !py_in_dict, Hb, He. rewrite app_nil_r. reflexivity.
Qed.

Lemma stats_cycle_balance_label_witness :
  stats_cycle (PStr "AA11")
    (HttpOk (mkresponse 200 (JsonOk (PDict [("height", PInt 12)]))))
    (HttpExc "Read timed out") =
  ([ReqStats; ReqBalance (PStr "AA11"); StatsCleared;
    StatsInsert (StatsText "{'height': 12}");
    BalanceLabel "Balance: Error (Read timed out)"], Ret tt).
Proof.
  assert (T : truthy (PStr "AA11") = true) by reflexivity.
  assert (S : Explorer.get_stats (HttpOk (mkresponse 200 (JsonOk (PDict [("height", PInt 12)]))))
              = Ret (PDict [("height", PInt 12)])) by reflexivity.
  assert (Ne : dict_get [("height", PInt 12)] "error" = None) by reflexivity.
  assert (B : Explorer.get_balance (HttpExc "Read timed out")
              = Ret (PDict [("error", PStr "Read timed out")])) by reflexivity.
  destruct (stats_cycle_balance_label _ _ _ _ _ T S Ne B) as (_ & _ & H3 & _).
  exact (H3 (PStr "Read timed out") eq_refl eq_refl).
Defined.

(** X11: [refresh_feed] shows only the notice "No posts or node offline." when
    the feed request fails or its JSON is empty, falsy or contains "error". *)
Theorem refresh_feed_notice (o : http_outcome) :
  (forall r v, o = HttpOk r -> status_code r = 200%Z -> body r = JsonOk v ->
   truthy v = false \/ py_in "error" v = Some true) ->
  refresh_feed o = ([FeedCleared; FeedInsert feed_notice], Ret tt).
Proof.
  intro H. unfold refresh_feed.
  destruct o as [r|m]; [|reflexivity]. cbn [Explorer.get_feed].
  destruct (Z.eqb (status_code r) 200) eqn:S; [|reflexivity].
  apply Z.eqb_eq in S.
  destruct (body r) as [v|m] eqn:B; [|reflexivity].
  destruct (H r v eq_refl S B) as [F|F].
  - rewrite F. reflexivity.
  - destruct (truthy v); [|reflexivity]. simpl. rewrite F. reflexivity.
Qed.

Lemma refresh_feed_notice_witness :
  refresh_feed (HttpOk (mkresponse 200 (JsonOk (PList [PStr "error"])))) =
  ([FeedCleared; FeedInsert feed_notice], Ret tt).
Proof.
  apply refresh_feed_notice.
  intros r v E S B. injection E as <-. simpl in B. injection B as <-.
  right. reflexivity.
Defined.

Lemma render_post_at (p : pyval) (s : string) : render_post p = Some s -> str_prefixb "@" s = true.
Proof.
  unfold render_post. destruct p; try discriminate.
  destruct (slice8 _); [|discriminate]. intro E. injection E as <-. reflexivity.
Qed.

(** X12: a JSON list feed never raises; when it is nonempty and has no "error"
    element, the feed shows at most one entry per post, each starting with [@]. *)
Theorem refresh_feed_list (r : response) (posts : list pyval) :
  status_code r = 200%Z -> body r = JsonOk (PList posts) ->
  snd (refresh_feed (HttpOk r)) = Ret tt /\
  (posts <> [] -> py_in "error" (PList posts) = Some false ->
   exists entries,
     refresh_feed (HttpOk r) = (FeedCleared :: map FeedInsert entries, Ret tt) /\
     List.length entries <= List.length posts /\
     Forall (fun s => str_prefixb "@" s = true) entries).
Proof.
  intros S B.
  assert (G : Explorer.get_feed (HttpOk r) = Ret (PList posts)).
  { simpl. rewrite S, B. reflexivity. }
  set (entries := flat_map (fun p => match render_post p with
                                     | Some s => [s] | None => [] end) posts).
  assert (M : flat_map (fun p => match render_post p with
                                 | Some s => [FeedInsert s] | None => [] end) posts
              = map FeedInsert entries).
  { unfold entries. clear. induction posts as [|p ps IH]; [reflexivity|]. simpl.
    rewrite map_app, <- IH. destruct (render_post p); reflexivity. }
  unfold refresh_feed. rewrite G. split.
  - destruct posts as [|p ps]; [reflexivity|]. cbn [truthy negb py_in].
    destruct (existsb _ _); reflexivity.
  - intros Hne Hin. exists entries. split; [|split].
    + destruct posts as [|p ps]; [congruence|]. cbn [truthy negb]. rewrite Hin.
      cbn [py_iter]. rewrite M. reflexivity.
    + unfold entries. clear. induction posts as [|p ps IH]; [simpl; lia|].
      simpl. rewrite length_app. destruct (render_post p); simpl; lia.
    + unfold entries. clear. induction posts as [|p ps IH]; [constructor|].
      simpl. apply Forall_app. split; [|exact IH].
      destruct (render_post p) as [s|] eqn:E; [|constructor].
      constructor; [apply (render_post_at p s E) | constructor].
Qed.

Lemma refresh_feed_list_witness :
  exists entries,
    refresh_feed (HttpOk (mkresponse 200 (JsonOk (PList [PInt 1; PDict [("author", PStr "abcdefghijk")]])))) =
    (FeedCleared :: map FeedInsert entries, Ret tt) /\
    List.length entries <= 2 /\ Forall (fun s => str_prefixb "@" s = true) entries.
Proof.
  assert (S : status_code (mkresponse 200 (JsonOk (PList [PInt 1; PDict [("author", PStr "abcdefghijk")]]))) = 200%Z)
    by reflexivity.
  assert (B : body (mkresponse 200 (JsonOk (PList [PInt 1; PDict [("author", PStr "abcdefghijk")]])))
              = JsonOk (PList [PInt 1; PDict [("author", PStr "abcdefghijk")]])) by reflexivity.
  assert (Ne : [PInt 1; PDict [("author", PStr "abcdefghijk")]] <> []) by discriminate.
  assert (I : py_in "error" (PList [PInt 1; PDict [("author", PStr "abcdefghijk")]]) = Some false)
    by reflexivity.
  exact (proj2 (refresh_feed_list _ _ S B) Ne I).
Defined.

(** X13: a nonempty JSON object feed without "error" shows an empty feed; a
    nonzero JSON number ([int] or [float]) or [true] makes [refresh_feed] raise
    [TypeError] after clearing. *)
Theorem refresh_feed_dict_or_number (r : response) (v : pyval) :
  status_code r = 200%Z -> body r = JsonOk v ->
  (forall d, v = PDict d -> d <> [] -> dict_get d "error" = None ->
   refresh_feed (HttpOk r) = ([FeedCleared], Ret tt)) /\
  (forall z, v = PInt z -> z <> 0%Z ->
   refresh_feed (HttpOk r) = ([FeedCleared], Raise "TypeError")) /\
  (forall f, v = PFloat f -> fmant f <> 0%Z ->
   refresh_feed (HttpOk r) = ([FeedCleared], Raise "TypeError")) /\
  (v = PBool true -> refresh_feed (HttpOk r) = ([FeedCleared], Raise "TypeError")).
Proof.
  intros S B.
  assert (G : Explorer.get_feed (HttpOk r) = Ret v).
  { simpl. rewrite S, B. reflexivity. }
  unfold refresh_feed. rewrite G. split; [|split; [|split]].
  - intros d -> Hne He. destruct d as [|kv d']; [congruence|].
    cbn [truthy negb]. rewrite py_in_dict, He. cbn [py_iter].
    rewrite feed_keys_skipped. reflexivity.
  - intros z -> Hz. cbn [truthy]. apply Z.eqb_neq in Hz. rewrite Hz. reflexivity.
  - intros f -> Hf. cbn [truthy]. apply Z.eqb_neq in Hf. rewrite Hf. reflexivity.
  - intros ->. reflexivity.
Qed.

Lemma refresh_feed_dict_or_number_witness :
  refresh_feed (HttpOk (mkresponse 200 (JsonOk (PDict [("posts", PList [])])))) =
  ([FeedCleared], Ret tt) /\
  refresh_feed (HttpOk (mkresponse 200 (JsonOk (PFloat (mkfloat 25 1))))) =
  ([FeedCleared], Raise "TypeError").
Proof.
  assert (S : status_code (mkresponse 200 (JsonOk (PDict [("posts", PList [])]))) = 200%Z)
    by reflexivity.
  assert (B : body (mkresponse 200 (JsonOk (PDict [("posts", PList [])])))
              = JsonOk (PDict [("posts", PList [])])) by reflexivity.
  assert (Ne : [("posts", PList [])] <> []) by discriminate.
  assert (E : dict_get [("posts", PList [])] "error" = None) by reflexivity.
  assert (S2 : status_code (mkresponse 200 (JsonOk (PFloat (mkfloat 25 1)))) = 200%Z)
    by reflexivity.
  assert (B2 : body (mkresponse 200 (JsonOk (PFloat (mkfloat 25 1))))
               = JsonOk (PFloat (mkfloat 25 1))) by reflexivity.
  assert (F : fmant (mkfloat 25 1) <> 0%Z) by discriminate.
  split.
  - exact (proj1 (refresh_feed_dict_or_number _ _ S B) _ eq_refl Ne E).
  - exact (proj1 (proj2 (proj2 (refresh_feed_dict_or_number _ _ S2 B2))) _ eq_refl F).
Defined.

Module KillFacts.

Lemma split_ws_nonempty (s cur : string) (c : ascii) :
  (cur <> "" \/ (has_char c s = true /\ is_py_space c = false)) -> split_ws s cur <> [].
Proof.
  revert cur; induction s as [|x s IH]; intros cur H; simpl.
  - destruct H as [H|[H _]]; [|discriminate].
    apply String.eqb_neq in H. rewrite H. discriminate.
  - destruct (is_py_space x) eqn:Sx.
    + destruct (String.eqb cur "") eqn:Ec; [|discriminate].
      apply IH. right. apply String.eqb_eq in Ec.
      destruct H as [H|[H1 H2]]; [congruence|]. simpl in H1.
      apply orb_true_iff in H1 as [H1|H1]; [|split; assumption].
      apply Ascii.eqb_eq in H1. subst. congruence.
    + apply IH. left. discriminate.
Qed.

Lemma str_contains_has_char (c : ascii) (p s : string) :
  str_contains (String c p) s = true -> has_char c s = true.
Proof.
  induction s as [|x s IH]; simpl; [discriminate|].
  intro H. apply orb_true_iff in H as [H|H].
  - apply andb_true_iff in H as [H _]. rewrite H. reflexivity.
  - rewrite IH by exact H. apply orb_true_r.
Qed.

Lemma listening_split (line : string) :
  str_contains "LISTENING" line = true -> py_split line <> [].
Proof.
  intro H. apply (split_ws_nonempty _ _ "L"). right. split; [|reflexivity].
  exact (str_contains_has_char _ _ _ H).
Qed.

Lemma rev_head_last (l : list string) :
  l <> [] -> exists t, rev l = last l "" :: t.
Proof.
  intro H. destruct (exists_last H) as (l' & a & ->).
  exists (rev l'). rewrite rev_app_distr, last_last. reflexivity.
Qed.

End KillFacts.

Import KillFacts.

(** X14: for a port text of digits, the pids [_kill_process_on_port] kills
    are exactly the last fields of the netstat lines that contain [:port] and
    LISTENING (so port [3000] also matches a line with [:30001]). *)
Theorem kill_process_on_port_pids (netstat_lines : list string) (port pid : string) :
  port_digits port = true ->
  (In pid (kill_process_on_port netstat_lines port) <->
   exists line, In line netstat_lines /\
     str_contains (":" ++ port) line = true /\
     str_contains "LISTENING" line = true /\
     last (py_split line) "" = pid).
Proof.
  intros _.
  unfold kill_process_on_port. change (":" ++ port) with (String ":" port).
  induction netstat_lines as [|line rest IH]; simpl.
  - split; [contradiction | intros (l & [] & _)].
  - destruct (str_contains (String ":" port) line) eqn:P; simpl.
    + destruct (str_contains "LISTENING" line) eqn:L.
      * destruct (rev_head_last (py_split line) (listening_split line L)) as [t Rt].
        rewrite Rt. simpl. rewrite IH. split.
        -- intros [<- | (l & Hin & H1 & H2 & H3)].
           ++ exists line. auto.
           ++ exists l. auto.
        -- intros (l & [<- | Hin] & H1 & H2 & H3); [left; exact H3 | right].
           exists l. auto.
      * rewrite IH. split.
        -- intros (l & Hin & H1 & H2 & H3). exists l. auto.
        -- intros (l & [<- | Hin] & H1 & H2 & H3); [congruence|]. exists l. auto.
    + rewrite IH. split.
      * intros (l & Hin & H1 & H2 & H3). exists l. auto.
      * intros (l & [<- | Hin] & H1 & H2 & H3); [congruence|]. exists l. auto.
Qed.

Lemma kill_process_on_port_pids_witness :
  port_digits "3000" = true /\
  (In "4242" (kill_process_on_port ["  TCP    0.0.0.0:30001   0.0.0.0:0   LISTENING   4242"] "3000") <->
   exists line, In line ["  TCP    0.0.0.0:30001   0.0.0.0:0   LISTENING   4242"] /\
     str_contains (":" ++ "3000") line = true /\
     str_contains "LISTENING" line = true /\
     last (py_split line) "" = "4242").
Proof.
  assert (D : port_digits "3000" = true) by reflexivity.
  exact (conj D (kill_process_on_port_pids _ "3000" "4242" D)).
Defined.
